(** * linear-mcp: the session-and-dispatch layer of [src/index.ts]

    A shallow embedding of class [LinearServer]: the two request handlers
    installed by [setupRequestHandlers] (tools/list and tools/call) and the
    HTTP routes installed by [run] (POST /mcp and GET /mcp) together with
    the [transports] object they share; and the single-shot POST /mcp
    route of the earlier [run] kept in the same file.

    Collaborators that live outside [index.ts] are not re-implemented:
    the handler methods, the tool schemas, [isInitializeRequest] and the
    behaviour of an SDK transport on one request are parameters or inputs
    of the model. *)

From stdpp Require Import gmap strings list pretty.
From Stdlib Require Import ZArith Ascii.

Set Warnings "-register-all".

Local Open Scope string_scope.

(** ** JavaScript completions and thrown values *)

Module Js.

(** What a [throw] can carry.  [McpError] is the SDK class, a subclass of
    [Error] built from a numeric code and a message. *)
Inductive Thrown : Type :=
| JsError (message : string)
| McpError (code : Z) (message : string)
| NonError (shown : string).

(** Outcome of evaluating a call (or of awaiting the promise it returns). *)
Inductive Completion (A : Type) : Type :=
| Return (a : A)
| Throw (e : Thrown).
Global Arguments Return {A} a.
Global Arguments Throw {A} e.

(** [ErrorCode] of the SDK, the two members [index.ts] mentions. *)
Definition MethodNotFound : Z := (-32601)%Z.
Definition InternalError : Z := (-32603)%Z.

Definition instanceofError (e : Thrown) : bool :=
  match e with
  | JsError _ | McpError _ _ => true
  | NonError _ => false
  end.

(** [e.message]: the constructor argument for a plain [Error]; the SDK's
    [McpError] constructor calls [super(`MCP error ${code}: ${message}`)]. *)
Definition message (e : Thrown) : string :=
  match e with
  | JsError m => m
  | McpError c m => "MCP error " +:+ pretty c +:+ ": " +:+ m
  | NonError _ => ""
  end.

(** [s.startsWith(p)] *)
Definition startsWith (s p : string) : bool := String.prefix p s.

(** JSON values written by [res.json]; object fields in source order. *)
Inductive json : Type :=
| JNull
| JNum (z : Z)
| JStr (s : string)
| JObj (fields : list (string * json)).

End Js.

Import Js.

(** ** The request handlers of [setupRequestHandlers] *)

Module Dispatch.

(** The JSON-RPC answer to one request: a result, or an error with its
    code and message. *)
Inductive Answer (R : Type) : Type :=
| Answered (r : R)
| Failed (code : Z) (text : string).
Global Arguments Answered {R} r.
Global Arguments Failed {R} code text.

(** [Number.isSafeInteger] on an integer. *)
Definition isSafeInteger (z : Z) : bool :=
  bool_decide (- (2 ^ 53 - 1) ≤ z ≤ 2 ^ 53 - 1)%Z.

(** The SDK [Server] around a request handler (the SDK is not among the
    sources): the handler's result is sent as the result of the request,
    and a rejection goes no further than the server.  It is answered as a
    JSON-RPC error whose code is the thrown value's own [code] when that
    is a safe integer (of the values modelled, a [McpError] has one) and
    [InternalError] otherwise, and whose message is its [message], or
    "Internal error" when it has none. *)
Definition answer {R : Type} (c : Completion R) : Answer R :=
  match c with
  | Return r => Answered r
  | Throw e =>
      Failed
        (match e with
         | McpError code _ => if isSafeInteger code then code else InternalError
         | JsError _ | NonError _ => InternalError
         end)
        (match e with
         | JsError _ | McpError _ _ => message e
         | NonError _ => "Internal error"
         end)
  end.

Section Router.

(** [request.params.arguments], what a tool resolves to, and whatever
    the handlers act on (the Linear API behind them). *)
Context {Args Result World Schema : Type}.

(** A handler method: an async function of the call's arguments. *)
Definition Method : Type := Args → World → Completion Result * World.

(** A handler object, seen through the property access
    [(handler as any)[method]]. *)
Definition Handler : Type := string → option Method.

Record DispatchEntry : Type := {
  toolName : string;
  handlerRef : Handler;
  methodName : string
}.

(** The tool-name table of [HandlerFactory] and the imported
    [toolSchemas] object (its own properties in enumeration order). *)
Variable handlerMap : list DispatchEntry.
Variable toolSchemas : list (string * Schema).

Definition Object_values {V : Type} (o : list (string * V)) : list V :=
  o.*2.

Definition registered (name : string) : Prop :=
  ∃ d, d ∈ handlerMap ∧ toolName d = name.

(** Modelled from the spec: [HandlerFactory.getHandlerForTool]
    ([core/handlers/handler.factory.ts] is not among the sources).
    Resolution is a pure lookup in the static table; for a name with no
    entry it throws the [Error] that the catch clause of the tools/call
    handler recognises by its prefix. *)
Definition getHandlerForTool (name : string) : Completion DispatchEntry :=
  match List.find (λ d, bool_decide (toolName d = name)) handlerMap with
  | Some d => Return d
  | None => Throw (JsError ("No handler found for tool: " +:+ name))
  end.

(** One call of a handler method, recorded as (tool, method). *)
Definition Invocation : Type := string * string.

(** The body of the [try] block, lines 259-261. *)
Definition tryCallTool (name : string) (args : Args) (w : World)
  : Completion Result * World * list Invocation :=
  match getHandlerForTool name with
  | Throw e => (Throw e, w, [])
  | Return d =>
      match handlerRef d (methodName d) with
      | None => (Throw (JsError "handler[method] is not a function"), w, [])
      | Some m =>
          let '(r, w') := m args w in
          (r, w', [(toolName d, methodName d)])
      end
  end.

(** The test of the catch clause, line 263. *)
Definition noHandlerFound (e : Thrown) : bool :=
  instanceofError e && startsWith (message e) "No handler found".

(** The catch clause, lines 262-270. *)
Definition catchCallTool (name : string) (e : Thrown) : Thrown :=
  if noHandlerFound e
  then McpError MethodNotFound ("Unknown tool: " +:+ name)
  else e.

(** Handler registered for [CallToolRequestSchema]. *)
Definition callToolHandler (name : string) (args : Args) (w : World)
  : Completion Result * World * list Invocation :=
  match tryCallTool name args w with
  | (Throw e, w', inv) => (Throw (catchCallTool name e), w', inv)
  | ok => ok
  end.

(** Handler registered for [ListToolsRequestSchema]. *)
Definition listToolsHandler (w : World)
  : Completion (list Schema) * World * list Invocation :=
  (Return (Object_values toolSchemas), w, []).

(** The two request kinds the server has handlers for. *)
Inductive ToolRequest : Type :=
| ListTools
| CallTool (name : string) (arguments : Args).

Inductive ToolResult : Type :=
| Tools (tools : list Schema)
| Called (r : Result).

Definition mapCompletion {A B : Type} (f : A → B) (c : Completion A)
  : Completion B :=
  match c with
  | Return a => Return (f a)
  | Throw e => Throw e
  end.

Definition requestHandler (rq : ToolRequest) (w : World)
  : Completion ToolResult * World * list Invocation :=
  match rq with
  | ListTools =>
      let '(c, w', inv) := listToolsHandler w in (mapCompletion Tools c, w', inv)
  | CallTool name args =>
      let '(c, w', inv) := callToolHandler name args w in
      (mapCompletion Called c, w', inv)
  end.

(** The server answering one request after another; the world the
    handlers act on is threaded through. *)
Fixpoint serve (rqs : list ToolRequest) (w : World)
  : list (Completion ToolResult) :=
  match rqs with
  | [] => []
  | rq :: rqs' =>
      let '(c, w', _) := requestHandler rq w in
      c :: serve rqs' w'
  end.

(** What the client is sent for a tools/call request. *)
Definition toolCallAnswer (name : string) (args : Args) (w : World)
  : Answer Result * World * list Invocation :=
  let '(c, w', inv) := callToolHandler name args w in
  (answer c, w', inv).

End Router.

End Dispatch.

(** ** The HTTP routes of [run] and the [transports] object *)

Module Gateway.

(** Identity of a [StreamableHTTPServerTransport] instance: the n-th
    transport constructed by the process has address n. *)
Definition addr : Type := nat.

(** What the property read [this.transports[k]] can produce. *)
Inductive jsval : Type :=
| VUndefined
| VTransport (a : addr)
| VInherited (name : string).

(** [transports] is created by the literal [{}], so reads that miss its
    own properties continue in [Object.prototype]. *)
Definition Object_prototype : list string :=
  [ "constructor"; "__defineGetter__"; "__defineSetter__"; "hasOwnProperty";
    "__lookupGetter__"; "__lookupSetter__"; "isPrototypeOf";
    "propertyIsEnumerable"; "toString"; "valueOf"; "__proto__";
    "toLocaleString" ].

Definition Get (o : gmap string addr) (k : string) : jsval :=
  match o !! k with
  | Some a => VTransport a
  | None => if bool_decide (k ∈ Object_prototype) then VInherited k else VUndefined
  end.

Definition truthy (v : jsval) : bool :=
  match v with
  | VUndefined => false
  | VTransport _ | VInherited _ => true
  end.

(** A header value has type [string | undefined]. *)
Definition ToBoolean (s : option string) : bool :=
  match s with
  | None => false
  | Some s => negb (bool_decide (s = ""))
  end.

Definition ToPropertyKey (s : option string) : string :=
  default "undefined" s.

(** [randomUUID()]: 32 hexadecimal digits of the 128 bits drawn, grouped
    8-4-4-4-12. *)
Definition hexDigit (n : N) : ascii :=
  match n with
  | 0 => "0" | 1 => "1" | 2 => "2" | 3 => "3" | 4 => "4" | 5 => "5"
  | 6 => "6" | 7 => "7" | 8 => "8" | 9 => "9" | 10 => "a" | 11 => "b"
  | 12 => "c" | 13 => "d" | 14 => "e" | _ => "f"
  end%N%char.

Fixpoint hexGroup (w : nat) (n : N) (rest : string) : string :=
  match w with
  | O => rest
  | S w' => hexGroup w' (n / 16)%N (String (hexDigit (n mod 16)%N) rest)
  end.

Definition randomUUID (bits : N) : string :=
  hexGroup 8 (N.shiftr bits 96)
    (String "-" (hexGroup 4 (N.shiftr bits 80)
      (String "-" (hexGroup 4 (N.shiftr bits 64)
        (String "-" (hexGroup 4 (N.shiftr bits 48)
          (String "-" (hexGroup 12 bits ""))))))))%char.

(** The Express response object, as far as the routes observe it. *)
Inductive Payload : Type :=
| JsonBody (j : json)
| TextBody (s : string)
| TransportBody (frames : list string).

Record Response : Type := {
  statusCode : nat;
  headersSent : bool;
  mcpSessionIdHeader : option string;
  body : option Payload
}.

Definition res0 : Response :=
  {| statusCode := 200; headersSent := false;
     mcpSessionIdHeader := None; body := None |}.

(** [res.status(code).json(j)] and [res.status(code).send(text)] *)
Definition status_json (code : nat) (j : json) (res : Response) : Response :=
  {| statusCode := code; headersSent := true;
     mcpSessionIdHeader := mcpSessionIdHeader res; body := Some (JsonBody j) |}.

Definition status_send (code : nat) (text : string) (res : Response) : Response :=
  {| statusCode := code; headersSent := true;
     mcpSessionIdHeader := mcpSessionIdHeader res; body := Some (TextBody text) |}.

Definition jsonRpcError (code : Z) (msg : string) : json :=
  JObj [ ("jsonrpc", JStr "2.0");
         ("error", JObj [ ("code", JNum code); ("message", JStr msg) ]);
         ("id", JNull) ].

(** What one call of [transport.handleRequest] does, chosen by the SDK
    and the client: whether it initializes the session (drawing the bits
    of a session id), what it writes to the response, and whether the
    promise it returns rejects. *)
Record TransportAct : Type := {
  initializes : option N;
  replies : option (nat * Payload);
  fails : option Thrown
}.

(** [sessionIds] holds the [sessionId] field of each transport, which the
    transport sets when it initializes. *)
Record State : Type := {
  transports : gmap string addr;
  constructed : nat;
  connected : list addr;
  closed : list addr;
  sessionIds : gmap addr string
}.

Definition initial : State :=
  {| transports := ∅; constructed := 0; connected := []; closed := [];
     sessionIds := ∅ |}.

(** The callback given to the transport constructed at address [a],
    lines 299-303: [this.transports[sessionId] = transport]. *)
Definition onsessioninitialized (a : addr) (sessionId : string) (σ : State) : State :=
  {| transports := <[sessionId := a]> (transports σ);
     constructed := constructed σ;
     connected := connected σ;
     closed := closed σ;
     sessionIds := sessionIds σ |}.

(** Result of running a route on one request. *)
Record Outcome : Type := {
  completion : Completion unit;
  state : State;
  response : Response;
  handledBy : option jsval;
  initialized : option string
}.

(** The transport at address [a] sets its [sessionId] field. *)
Definition setSessionId (a : addr) (sessionId : string) (σ : State) : State :=
  {| transports := transports σ;
     constructed := constructed σ;
     connected := connected σ;
     closed := closed σ;
     sessionIds := <[a := sessionId]> (sessionIds σ) |}.

(** Modelled from the spec: one call of [handleRequest] on the SDK
    transport at address [a] (the class [StreamableHTTPServerTransport] is
    not among the sources).  The transport was constructed with
    [sessionIdGenerator: () => randomUUID()] and the callback above.  It
    accepts one initialization (section 4.2): a transport that has no
    session id yet may initialize, drawing an id, keeping it and firing
    the callback with it; one that has a session id never initializes
    again.  Whatever it replies names its session id in a header. *)
Definition transportHandles (a : addr) (t : TransportAct)
    (σ : State) (res : Response) : Outcome :=
  let sid := match sessionIds σ !! a with
             | Some _ => None
             | None => randomUUID <$> initializes t
             end in
  let σ' := match sid with
            | Some s => onsessioninitialized a s (setSessionId a s σ)
            | None => σ
            end in
  {| completion := match fails t with Some e => Throw e | None => Return () end;
     state := σ';
     response := match replies t with
                 | Some (code, p) =>
                     {| statusCode := code; headersSent := true;
                        mcpSessionIdHeader := sessionIds σ' !! a; body := Some p |}
                 | None => res
                 end;
     handledBy := Some (VTransport a);
     initialized := sid |}.

(** [await transport.handleRequest(req, res, ...)] on whatever value
    [transport] holds: a value that is not a transport has no such method
    and the call throws a [TypeError]. *)
Definition handleRequest (transport : jsval) (t : TransportAct)
    (σ : State) (res : Response) : Outcome :=
  match transport with
  | VTransport a => transportHandles a t σ res
  | _ =>
      {| completion := Throw (JsError "transport.handleRequest is not a function");
         state := σ; response := res;
         handledBy := Some transport; initialized := None |}
  end.

Section Routes.

(** [req.body] after [express.json()], and the SDK's type guard. *)
Context {Body : Type}.
Variable isInitializeRequest : Body → bool.

Record Request : Type := {
  mcp_session_id : option string;
  reqBody : Body
}.

(** Outcome of [await this.server.connect(transport)] and of the
    transport's handling of the request. *)
Record PostEnv : Type := {
  connectFails : option Thrown;
  act : TransportAct
}.

Definition server_connect (a : addr) (σ : State) : State :=
  {| transports := transports σ;
     constructed := constructed σ;
     connected := a :: connected σ;
     closed := closed σ;
     sessionIds := sessionIds σ |}.

Definition newTransport (σ : State) : addr * State :=
  (constructed σ,
   {| transports := transports σ;
      constructed := S (constructed σ);
      connected := connected σ;
      closed := closed σ;
      sessionIds := sessionIds σ |}).

(** The [try] block of POST /mcp, lines 288-326. *)
Definition postTry (σ : State) (req : Request) (env : PostEnv) : Outcome :=
  let sessionId := mcp_session_id req in
  if ToBoolean sessionId && truthy (Get (transports σ) (ToPropertyKey sessionId)) then
    let transport := Get (transports σ) (ToPropertyKey sessionId) in
    handleRequest transport (act env) σ res0
  else if negb (ToBoolean sessionId) && isInitializeRequest (reqBody req) then
    let '(transport, σ1) := newTransport σ in
    match connectFails env with
    | Some e =>
        {| completion := Throw e; state := σ1; response := res0;
           handledBy := None; initialized := None |}
    | None =>
        handleRequest (VTransport transport) (act env) (server_connect transport σ1) res0
    end
  else
    {| completion := Return (); state := σ;
       response := status_json 400
         (jsonRpcError (-32000) "Bad Request: No valid session ID provided") res0;
       handledBy := None; initialized := None |}.

(** The catch clause of POST /mcp, lines 327-339. *)
Definition postCatch (res : Response) : Response :=
  if negb (headersSent res)
  then status_json 500 (jsonRpcError (-32603) "Internal server error") res
  else res.

Definition post_mcp (σ : State) (req : Request) (env : PostEnv) : Outcome :=
  let o := postTry σ req env in
  match completion o with
  | Return _ => o
  | Throw _ =>
      {| completion := Return (); state := state o;
         response := postCatch (response o);
         handledBy := handledBy o; initialized := initialized o |}
  end.

(** GET /mcp, lines 343-353 (no try/catch: a throw rejects the route's
    promise). *)
Definition get_mcp (σ : State) (req : Request) (t : TransportAct) : Outcome :=
  let sessionId := mcp_session_id req in
  if negb (ToBoolean sessionId)
     || negb (truthy (Get (transports σ) (ToPropertyKey sessionId))) then
    {| completion := Return (); state := σ;
       response := status_send 400 "Invalid or missing session ID" res0;
       handledBy := None; initialized := None |}
  else
    let transport := Get (transports σ) (ToPropertyKey sessionId) in
    handleRequest transport t σ res0.

(** What happens to the server over time.  Nothing in [index.ts]
    listens for a transport closing, so that event only marks the
    transport. *)
Inductive Event : Type :=
| Post (req : Request) (env : PostEnv)
| GetStream (req : Request) (t : TransportAct)
| TransportClosed (a : addr).

Definition markClosed (a : addr) (σ : State) : State :=
  {| transports := transports σ;
     constructed := constructed σ;
     connected := connected σ;
     closed := a :: closed σ;
     sessionIds := sessionIds σ |}.

Definition outcomeOf (σ : State) (ev : Event) : option Outcome :=
  match ev with
  | Post req env => Some (post_mcp σ req env)
  | GetStream req t => Some (get_mcp σ req t)
  | TransportClosed _ => None
  end.

Definition step (σ : State) (ev : Event) : State :=
  match ev with
  | TransportClosed a => markClosed a σ
  | _ => from_option state σ (outcomeOf σ ev)
  end.

Definition run (σ : State) (evs : list Event) : State :=
  fold_left step evs σ.

(** The session id stored by an event, if any. *)
Definition minted (σ : State) (ev : Event) : option string :=
  outcomeOf σ ev ≫= initialized.

(** The id generator does not repeat an id that is in use
    (section 4.1: collisions of [randomUUID] are not a handled case). *)
Definition freshFor (σ : State) (ev : Event) : Prop :=
  ∀ sid, minted σ ev = Some sid → transports σ !! sid = None.

Fixpoint freshTrace (σ : State) (evs : list Event) : Prop :=
  match evs with
  | [] => True
  | ev :: evs' => freshFor σ ev ∧ freshTrace (step σ ev) evs'
  end.

(** A session exists once its transport is stored in the registry. *)
Definition known (σ : State) (sid : string) : Prop :=
  is_Some (transports σ !! sid).

Definition isClosed (σ : State) (a : addr) : Prop := a ∈ closed σ.

(** Requests whose session id resolves to nothing. *)
Definition unresolved (σ : State) (sessionId : option string) : Prop :=
  ToBoolean sessionId = false ∨
  Get (transports σ) (ToPropertyKey sessionId) = VUndefined.

(** Every key of the registry is the text of a UUID. *)
Definition uuidKeyed (σ : State) : Prop :=
  ∀ sid, known σ sid → ∃ bits, sid = randomUUID bits.

End Routes.

End Gateway.

(** ** How one event can change the server *)

Module Lifecycle.

Import Gateway.

(** The state changes that the routes are built from: nothing; a transport
    closing; the callback of a transport already in the registry storing
    it once more; the POST route constructing a transport, connecting it,
    and that transport storing itself. *)
Inductive Effect (σ : State) : State → Prop :=
| EffNone : Effect σ σ
| EffClosed (a : addr) : Effect σ (markClosed a σ)
| EffStored (k : string) (a : addr) (bits : N) :
    transports σ !! k = Some a →
    sessionIds σ !! a = None →
    Effect σ (onsessioninitialized a (randomUUID bits)
                (setSessionId a (randomUUID bits) σ))
| EffConstructed : Effect σ (newTransport σ).2
| EffConnected :
    Effect σ (server_connect (constructed σ) (newTransport σ).2)
| EffOpened (bits : N) :
    Effect σ (onsessioninitialized (constructed σ) (randomUUID bits)
                (setSessionId (constructed σ) (randomUUID bits)
                   (server_connect (constructed σ) (newTransport σ).2))).

(** Every adapter in the registry has been passed to [server.connect]. *)
Definition adaptersConnected (σ : State) : Prop :=
  ∀ sid a, transports σ !! sid = Some a → a ∈ connected σ.

(** No transport is connected twice, and only constructed ones are. *)
Definition connectedOnce (σ : State) : Prop :=
  NoDup (connected σ) ∧ ∀ a, a ∈ connected σ → a < constructed σ.

(** A transport is in the registry only once it has a session id, and
    only constructed transports have one. *)
Definition storedInitialized (σ : State) : Prop :=
  (∀ sid a, transports σ !! sid = Some a → is_Some (sessionIds σ !! a)) ∧
  (∀ a, is_Some (sessionIds σ !! a) → a < constructed σ).

End Lifecycle.

(** ** The single-shot POST /mcp route (first [run] of [index.ts],
    lines 88-179) *)

Module SingleShot.

(** The value of [message.method]: a string, absent, some other JSON
    value kept with the text that conversion to a string gives it, or an
    object that cannot be converted (one whose own [toString] is not a
    function, as in [{"method": {"toString": 1}}]). *)
Inductive MethodField : Type :=
| MethodString (s : string)
| MethodUndefined
| MethodOther (shown : string)
| MethodUnprintable.

(** [`${message.method}`]: the conversion to a string throws for an object
    without a usable [toString] or [valueOf]. *)
Definition templateText (m : MethodField) : Completion string :=
  match m with
  | MethodString s => Return s
  | MethodUndefined => Return "undefined"
  | MethodOther shown => Return shown
  | MethodUnprintable => Throw (JsError "Cannot convert object to primitive value")
  end.

(** [message.method === name] *)
Definition strictEquals (m : MethodField) (name : string) : bool :=
  match m with
  | MethodString s => bool_decide (s = name)
  | MethodUndefined | MethodOther _ | MethodUnprintable => false
  end.

Section Route.

(** The rest of the parsed body, and what [server.request] resolves to. *)
Context {Params Result : Type}.

Record Message : Type := {
  method : MethodField;
  params : Params
}.

(** The first argument of [this.server.request]. *)
Inductive ServerRequest : Type :=
| ListToolsRequest
| Forwarded (message : Message).

(** [await this.server.request(request, schema)] *)
Variable server_request : ServerRequest → Completion Result.

(** One argument of [transport.send]: each is written as a line of JSON. *)
Inductive Line : Type :=
| ResultLine (r : Result)
| ObjectLine (j : json).

Record Response : Type := {
  headers : list (string * string);
  statusCode : nat;
  headersSent : bool;
  written : list Line;
  jsonBody : option json;
  ended : bool
}.

Definition res0 : Response :=
  {| headers := []; statusCode := 200; headersSent := false;
     written := []; jsonBody := None; ended := false |}.

Definition setHeader (name value : string) (res : Response) : Response :=
  {| headers := headers res ++ [(name, value)];
     statusCode := statusCode res; headersSent := headersSent res;
     written := written res; jsonBody := jsonBody res; ended := ended res |}.

(** [transport.send(message)]: [outputStream.write(...)] *)
Definition send (l : Line) (res : Response) : Response :=
  {| headers := headers res; statusCode := statusCode res; headersSent := true;
     written := written res ++ [l]; jsonBody := jsonBody res; ended := ended res |}.

(** [transport.close()]: [outputStream.end()] *)
Definition close (res : Response) : Response :=
  {| headers := headers res; statusCode := statusCode res; headersSent := true;
     written := written res; jsonBody := jsonBody res; ended := true |}.

(** [res.set(name, value)] on the headers collected so far. *)
Definition replaceHeader (name value : string) (hs : list (string * string))
  : list (string * string) :=
  if bool_decide (name ∈ hs.*1)
  then (λ h, if bool_decide (h.1 = name) then (name, value) else h) <$> hs
  else hs ++ [(name, value)].

(** [res.status(code).json(j)]: the body is sent as text, so the content
    type, set before or not, ends up as JSON with a charset. *)
Definition status_json (code : nat) (j : json) (res : Response) : Response :=
  {| headers :=
       replaceHeader "Content-Type" "application/json; charset=utf-8" (headers res);
     statusCode := code; headersSent := true;
     written := written res; jsonBody := Some j; ended := true |}.

Definition errorObject (code : Z) (msg : string) : json :=
  JObj [ ("error", JObj [ ("code", JNum code); ("message", JStr msg) ]) ].

(** The [try] block, lines 109-161.  [req.body] may be undefined, and then
    reading [message.method] throws (the text is the one of Node 20, the
    runtime of the Dockerfile). *)
Definition postTry (body : option Message) (res : Response)
  : Completion unit * Response :=
  match body with
  | None =>
      (Throw (JsError "Cannot read properties of undefined (reading 'method')"), res)
  | Some message =>
      if strictEquals (method message) "tools/list" then
        match server_request ListToolsRequest with
        | Throw e => (Throw e, res)
        | Return result => (Return (), close (send (ResultLine result) res))
        end
      else if strictEquals (method message) "tools/call" then
        match server_request (Forwarded message) with
        | Throw e => (Throw e, res)
        | Return result => (Return (), close (send (ResultLine result) res))
        end
      else
        match templateText (method message) with
        | Throw e => (Throw e, res)
        | Return text =>
            (Return (),
             close (send (ObjectLine
                            (errorObject MethodNotFound ("Unknown method: " +:+ text)))
                      res))
        end
  end.

(** The catch clause, lines 162-172. *)
Definition postCatch (e : Thrown) (res : Response) : Response :=
  if negb (headersSent res)
  then status_json 500
         (errorObject InternalError
            (if instanceofError e then message e else "Internal server error"))
         res
  else res.

(** The route, lines 101-173. *)
Definition post_mcp (body : option Message) : Response :=
  let res :=
    setHeader "Connection" "keep-alive"
      (setHeader "Cache-Control" "no-cache"
        (setHeader "Content-Type" "application/json" res0)) in
  match postTry body res with
  | (Return _, res') => res'
  | (Throw e, res') => postCatch e res'
  end.

End Route.

End SingleShot.

(** ** Concrete instances used to exercise the model *)

Module Examples.

Import Dispatch Gateway.

(** Handlers over a world that counts the calls made to the Linear API. *)
Definition createIssue : @Method string string nat :=
  λ args w, (Return ("created " +:+ args), S w).

Definition failingSearch : @Method string string nat :=
  λ _ w, (Throw (JsError "boom"), S w).

Definition issueHandler : @Handler string string nat :=
  λ method,
    if bool_decide (method = "handleCreateIssue") then Some createIssue
    else if bool_decide (method = "handleSearchIssues") then Some failingSearch
    else None.

Definition exampleMap : list (@DispatchEntry string string nat) :=
  [ {| toolName := "linear_create_issue"; handlerRef := issueHandler;
       methodName := "handleCreateIssue" |};
    {| toolName := "linear_search_issues"; handlerRef := issueHandler;
       methodName := "handleSearchIssues" |} ].

Definition exampleSchemas : list (string * string) :=
  [ ("linear_create_issue", "create issue schema");
    ("linear_search_issues", "search issues schema") ].

(** Request bodies reduced to what the SDK guard [isInitializeRequest]
    looks at: the method, and the three members of [params] an initialize
    request must have. *)
Record ExampleBody : Type := {
  rpcMethod : string;
  protocolVersion : option string;
  hasCapabilities : bool;
  hasClientInfo : bool
}.

Definition isInit (b : ExampleBody) : bool :=
  bool_decide (rpcMethod b = "initialize")
  && bool_decide (is_Some (protocolVersion b))
  && hasCapabilities b && hasClientInfo b.

Definition initializeBody : ExampleBody :=
  {| rpcMethod := "initialize"; protocolVersion := Some "2025-03-26";
     hasCapabilities := true; hasClientInfo := true |}.

(** The body of the spec's Scenario A: an initialize method with empty
    params, which the guard does not accept. *)
Definition emptyInitializeBody : ExampleBody :=
  {| rpcMethod := "initialize"; protocolVersion := None;
     hasCapabilities := false; hasClientInfo := false |}.

Definition toolsListBody : ExampleBody :=
  {| rpcMethod := "tools/list"; protocolVersion := None;
     hasCapabilities := false; hasClientInfo := false |}.

Definition toolsCallBody : ExampleBody :=
  {| rpcMethod := "tools/call"; protocolVersion := None;
     hasCapabilities := false; hasClientInfo := false |}.

Definition quiet : TransportAct :=
  {| initializes := None; replies := None; fails := None |}.

Definition accepts (bits : N) : TransportAct :=
  {| initializes := Some bits;
     replies := Some (200, TransportBody ["initialize result"]);
     fails := None |}.

Definition answers : TransportAct :=
  {| initializes := None;
     replies := Some (200, TransportBody ["result"]);
     fails := None |}.

Definition breaksMidStream : TransportAct :=
  {| initializes := None;
     replies := Some (200, TransportBody ["partial"]);
     fails := Some (JsError "socket hang up") |}.

(** A transport that refuses the request before initializing, as the SDK
    does with 406 when the Accept header is not the one it needs. *)
Definition refuses : TransportAct :=
  {| initializes := None;
     replies := Some (406, JsonBody (jsonRpcError (-32000) "Not Acceptable"));
     fails := None |}.

Definition initRequest : @Request ExampleBody :=
  {| mcp_session_id := None; reqBody := initializeBody |}.

Definition firstSession : @Event ExampleBody :=
  Post initRequest {| connectFails := None; act := accepts 7 |}.

Definition secondSession : @Event ExampleBody :=
  Post initRequest {| connectFails := None; act := accepts 8 |}.

End Examples.

(** ** Further concrete instances *)

Module Scenarios.

Import Dispatch Gateway.

(** A handler object whose table entry names a method it does not have,
    and one whose method throws a value that is not an [Error]. *)
Definition throwsText : @Method string string nat :=
  λ _ w, (Throw (NonError "rate limited"), S w).

Definition teamHandler : @Handler string string nat :=
  λ method,
    if bool_decide (method = "handleGetTeams") then Some throwsText else None.

Definition scenarioMap : list (@DispatchEntry string string nat) :=
  [ {| toolName := "linear_create_issue"; handlerRef := Examples.issueHandler;
       methodName := "handleCreateIssue" |};
    {| toolName := "linear_get_teams"; handlerRef := teamHandler;
       methodName := "handleGetTeams" |};
    {| toolName := "linear_get_user"; handlerRef := teamHandler;
       methodName := "handleGetUser" |} ].

(** Handlers whose failure is a plain [Error] that happens to start like
    the factory's, and a typed error of another kind. *)
Definition staleCache : @Method string string nat :=
  λ _ w, (Throw (JsError "No handler found in cache"), S w).

Definition rejectsParams : @Method string string nat :=
  λ _ w, (Throw (McpError (-32602) "Invalid params"), S w).

Definition projectHandler : @Handler string string nat :=
  λ method,
    if bool_decide (method = "handleGetProject") then Some staleCache
    else if bool_decide (method = "handleCreateProject") then Some rejectsParams
    else None.

Definition projectMap : list (@DispatchEntry string string nat) :=
  [ {| toolName := "linear_get_project"; handlerRef := projectHandler;
       methodName := "handleGetProject" |};
    {| toolName := "linear_create_project"; handlerRef := projectHandler;
       methodName := "handleCreateProject" |};
    {| toolName := "linear_search_issues"; handlerRef := Examples.issueHandler;
       methodName := "handleSearchIssues" |} ].

(** The server of the single-shot [run], which is never connected to a
    transport: every [server.request] rejects. *)
Definition notConnected (rq : @SingleShot.ServerRequest string) : Completion string :=
  Throw (JsError "Not connected").

End Scenarios.

(** * Properties of the request handlers *)

Module DispatchFacts.

Import Dispatch.

Section Router.

Context {Args Result World Schema : Type}.
Variable handlerMap : list (@DispatchEntry Args Result World).
Variable toolSchemas : list (string * Schema).

Lemma find_unregistered (name : string) :
  ¬ registered handlerMap name →
  List.find (λ d, bool_decide (toolName d = name)) handlerMap = None.
Proof.
  intros Hnot.
  destruct (List.find _ handlerMap) as [d|] eqn:Hfind; [|done].
  apply List.find_some in Hfind as [Hin Heq].
  exfalso. apply Hnot. exists d. split.
  - by apply list_elem_of_In.
  - by apply bool_decide_eq_true in Heq.
Qed.

Lemma getHandlerForTool_unregistered (name : string) :
  ¬ registered handlerMap name →
  getHandlerForTool handlerMap name =
    Throw (JsError ("No handler found for tool: " +:+ name)).
Proof.
  intros Hnot. unfold getHandlerForTool.
  by rewrite find_unregistered.
Qed.

Lemma getHandlerForTool_registered (name : string) (d : DispatchEntry) :
  getHandlerForTool handlerMap name = Return d →
  registered handlerMap name ∧ toolName d = name.
Proof.
  unfold getHandlerForTool.
  destruct (List.find _ handlerMap) as [d'|] eqn:Hfind; [|done].
  intros [= ->].
  apply List.find_some in Hfind as [Hin Heq].
  apply bool_decide_eq_true in Heq.
  split; [|done]. exists d. split; [|done]. by apply list_elem_of_In.
Qed.

Lemma noHandlerFound_factory_error (name : string) :
  noHandlerFound (JsError ("No handler found for tool: " +:+ name)) = true.
Proof. reflexivity. Qed.

Lemma noHandlerFound_McpError (code : Z) (m : string) :
  noHandlerFound (McpError code m) = false.
Proof. reflexivity. Qed.

Lemma callToolHandler_unregistered (name : string) (args : Args) (w : World) :
  ¬ registered handlerMap name →
  callToolHandler handlerMap name args w =
    (Throw (McpError MethodNotFound ("Unknown tool: " +:+ name)), w, []).
Proof.
  intros Hnot.
  unfold callToolHandler, tryCallTool.
  rewrite getHandlerForTool_unregistered by done.
  unfold catchCallTool.
  by rewrite noHandlerFound_factory_error.
Qed.

Lemma message_MethodNotFound (text : string) :
  message (McpError (-32601) text) = "MCP error -32601: " +:+ text.
Proof. reflexivity. Qed.

(** C4 (amended).  A tools/call request that names a tool with no entry in
    the dispatch table ends in the error built by
    [new McpError(-32601, "Unknown tool: <name>")], whose message reads
    "MCP error -32601: Unknown tool: <name>", and that code and message
    are what the client is sent; no handler method is called and the world
    the handlers act on is untouched. *)
Theorem unknown_tool_is_MethodNotFound (name : string) (args : Args) (w : World) :
  ¬ registered handlerMap name →
  callToolHandler handlerMap name args w =
    (Throw (McpError (-32601) ("Unknown tool: " +:+ name)), w, []) ∧
  message (McpError (-32601) ("Unknown tool: " +:+ name)) =
    "MCP error -32601: Unknown tool: " +:+ name ∧
  toolCallAnswer handlerMap name args w =
    (Failed (-32601) ("MCP error -32601: Unknown tool: " +:+ name), w, []).
Proof.
  intros Hnot.
  split; [by apply callToolHandler_unregistered|].
  split; [reflexivity|].
  unfold toolCallAnswer. rewrite callToolHandler_unregistered by done.
  reflexivity.
Qed.

(** The catch clause on a failing handler: the error is thrown again as
    it is, unless it is taken for the factory's. *)
Lemma handler_error_is_rethrown
    (name : string) (d : DispatchEntry) (m : Method)
    (args : Args) (w w' : World) (e : Thrown) :
  getHandlerForTool handlerMap name = Return d →
  handlerRef d (methodName d) = Some m →
  m args w = (Throw e, w') →
  callToolHandler handlerMap name args w =
    (Throw (if noHandlerFound e
            then McpError MethodNotFound ("Unknown tool: " +:+ name)
            else e),
     w', [(toolName d, methodName d)]).
Proof.
  intros Hget Hmeth Hrun.
  unfold callToolHandler, tryCallTool.
  rewrite Hget, Hmeth, Hrun. reflexivity.
Qed.

(** C2 (amended).  When the tool name resolves to a handler method and that
    method raises an error, the error never reaches the HTTP route: the
    client is sent a protocol error.  Its code is -32601 ("Unknown tool:
    <name>") when the error is an [Error] whose message starts with "No
    handler found"; otherwise it is the error's own code when it is a
    [McpError] (whatever that code is), and -32603 for every other
    error. *)
Theorem handler_error_is_answered
    (name : string) (d : DispatchEntry) (m : Method)
    (args : Args) (w w' : World) (e : Thrown) :
  getHandlerForTool handlerMap name = Return d →
  handlerRef d (methodName d) = Some m →
  m args w = (Throw e, w') →
  toolCallAnswer handlerMap name args w =
    (if noHandlerFound e
     then Failed (-32601) ("MCP error -32601: Unknown tool: " +:+ name)
     else match e with
          | McpError code text =>
              Failed (if isSafeInteger code then code else (-32603))
                     ("MCP error " +:+ pretty code +:+ ": " +:+ text)
          | JsError text => Failed (-32603) text
          | NonError _ => Failed (-32603) "Internal error"
          end,
     w', [(name, methodName d)]).
Proof.
  intros Hget Hmeth Hrun.
  unfold toolCallAnswer.
  rewrite (handler_error_is_rethrown name d m args w w' e) by done.
  apply getHandlerForTool_registered in Hget as [_ ->].
  destruct (noHandlerFound e); [reflexivity|].
  by destruct e.
Qed.

Lemma listTools_answer (w : World) :
  requestHandler handlerMap toolSchemas ListTools w =
    (Return (Tools (Object_values toolSchemas)), w, []).
Proof. reflexivity. Qed.

(** C8.  In any sequence of requests served one after another, whatever
    tool calls come before and whatever they did to the world the handlers
    act on, every tools/list request is answered with the values of
    [toolSchemas] in their enumeration order. *)
Theorem tools_list_is_static (rqs : list ToolRequest) (w : World) (i : nat) :
  rqs !! i = Some ListTools →
  serve handlerMap toolSchemas rqs w !! i =
    Some (Return (Tools (Object_values toolSchemas))).
Proof.
  revert w i. induction rqs as [|rq rqs IH]; intros w i Hi; [done|].
  destruct i as [|i]; simpl in Hi.
  - injection Hi as ->. simpl. reflexivity.
  - simpl. destruct (requestHandler handlerMap toolSchemas rq w) as [[c w'] inv].
    simpl. by apply IH.
Qed.

End Router.

(** C4 as stated fails: the message of the error that an unknown tool
    ends in is not "Unknown tool: <name>" alone. *)
Lemma unknown_tool_message_has_prefix :
  callToolHandler Examples.exampleMap "does_not_exist" "{}" 0 =
    (Throw (McpError (-32601) "Unknown tool: does_not_exist"), 0, []) ∧
  message (McpError (-32601) "Unknown tool: does_not_exist") =
    "MCP error -32601: Unknown tool: does_not_exist" ∧
  message (McpError (-32601) "Unknown tool: does_not_exist") ≠
    "Unknown tool: does_not_exist".
Proof.
  split; [reflexivity|]. split; [reflexivity|].
  rewrite message_MethodNotFound. discriminate.
Qed.

(** C4 (amended) at a concrete table: "does_not_exist" has no entry. *)
Lemma unknown_tool_is_MethodNotFound_witness :
  ¬ registered Examples.exampleMap "does_not_exist" ∧
  callToolHandler Examples.exampleMap "does_not_exist" "{}" 0 =
    (Throw (McpError (-32601) "Unknown tool: does_not_exist"), 0, []) ∧
  message (McpError (-32601) "Unknown tool: does_not_exist") =
    "MCP error -32601: Unknown tool: does_not_exist" ∧
  toolCallAnswer Examples.exampleMap "does_not_exist" "{}" 0 =
    (Failed (-32601) "MCP error -32601: Unknown tool: does_not_exist", 0, []).
Proof.
  assert (H : ¬ registered Examples.exampleMap "does_not_exist").
  { intros (d & Hin & Hname). unfold Examples.exampleMap in Hin.
    apply elem_of_cons in Hin as [-> | Hin]; [discriminate|].
    apply elem_of_cons in Hin as [-> | Hin]; [discriminate|].
    by apply elem_of_nil in Hin. }
  split; [exact H|].
  exact (unknown_tool_is_MethodNotFound Examples.exampleMap "does_not_exist" "{}" 0 H).
Defined.

(** C8 between a successful and a failing tool call. *)
Lemma tools_list_is_static_witness :
  let rqs := [ CallTool "linear_create_issue" "{}"; ListTools;
               CallTool "linear_search_issues" "{}"; ListTools ] in
  rqs !! 3 = Some ListTools ∧
  serve Examples.exampleMap Examples.exampleSchemas rqs 0 !! 3 =
    Some (Return (Tools [ "create issue schema"; "search issues schema" ])).
Proof.
  split; [reflexivity|].
  exact (tools_list_is_static Examples.exampleMap Examples.exampleSchemas
           [ CallTool "linear_create_issue" "{}"; ListTools;
             CallTool "linear_search_issues" "{}"; ListTools ] 0 3 eq_refl).
Defined.

(** C2 as stated fails in two ways.  The handler behind
    "linear_get_project" raises a plain [Error] and signals no typed
    error, yet the client is sent -32601 and not -32603; the handler
    behind "linear_create_project" raises a typed -32602, and the client
    is sent that code, neither -32603 nor -32601. *)
Lemma handler_error_of_other_kinds :
  Scenarios.staleCache "{}" 0 = (Throw (JsError "No handler found in cache"), 1) ∧
  toolCallAnswer Scenarios.projectMap "linear_get_project" "{}" 0 =
    (Failed (-32601) "MCP error -32601: Unknown tool: linear_get_project", 1,
     [("linear_get_project", "handleGetProject")]) ∧
  Scenarios.rejectsParams "{}" 0 = (Throw (McpError (-32602) "Invalid params"), 1) ∧
  toolCallAnswer Scenarios.projectMap "linear_create_project" "{}" 0 =
    (Failed (-32602) "MCP error -32602: Invalid params", 1,
     [("linear_create_project", "handleCreateProject")]) ∧
  ((-32601) ≠ (-32603) ∧ (-32602) ≠ (-32603) ∧ (-32602) ≠ (-32601))%Z.
Proof.
  split; [reflexivity|]. split; [vm_compute; reflexivity|].
  split; [reflexivity|]. split; [vm_compute; reflexivity|].
  repeat split; discriminate.
Qed.

(** C2 (amended) at a handler that raises a plain [Error("boom")]. *)
Lemma handler_error_is_answered_witness :
  toolCallAnswer Scenarios.projectMap "linear_search_issues" "{}" 0 =
    (Failed (-32603) "boom", 1, [("linear_search_issues", "handleSearchIssues")]).
Proof.
  exact (handler_error_is_answered Scenarios.projectMap "linear_search_issues"
           {| toolName := "linear_search_issues";
              handlerRef := Examples.issueHandler;
              methodName := "handleSearchIssues" |}
           Examples.failingSearch "{}" 0 1 (JsError "boom")
           eq_refl eq_refl eq_refl).
Defined.

End DispatchFacts.

(** * Properties of the HTTP routes *)

Module GatewayFacts.

Import Gateway.

(** ** Session ids *)

Lemma length_hexGroup (w : nat) (n : N) (rest : string) :
  String.length (hexGroup w n rest) = w + String.length rest.
Proof.
  revert n rest. induction w as [|w IH]; intros n rest; simpl; [done|].
  rewrite IH. simpl. lia.
Qed.

Lemma length_randomUUID (bits : N) : String.length (randomUUID bits) = 36.
Proof.
  unfold randomUUID.
  repeat (rewrite length_hexGroup; cbn [String.length]).
  reflexivity.
Qed.

Lemma randomUUID_nonempty (bits : N) : randomUUID bits ≠ "".
Proof.
  intros H. apply (f_equal String.length) in H.
  rewrite length_randomUUID in H. discriminate.
Qed.

Lemma Object_prototype_short :
  Forall (λ k, String.length k ≠ 36) Object_prototype.
Proof. unfold Object_prototype. repeat constructor; discriminate. Qed.

Lemma randomUUID_not_inherited (bits : N) : randomUUID bits ∉ Object_prototype.
Proof.
  intros Hin.
  pose proof Object_prototype_short as Hshort.
  rewrite Forall_forall in Hshort.
  apply (Hshort _ Hin), length_randomUUID.
Qed.

(** ** Property reads on [transports] *)

Lemma Get_own (o : gmap string addr) (k : string) (a : addr) :
  o !! k = Some a → Get o k = VTransport a.
Proof. intros H. unfold Get. by rewrite H. Qed.

Lemma Get_VTransport (o : gmap string addr) (k : string) (a : addr) :
  Get o k = VTransport a → o !! k = Some a.
Proof.
  unfold Get. destruct (o !! k) as [a'|]; [by intros [= ->]|].
  by case_bool_decide.
Qed.

Lemma Get_VUndefined (o : gmap string addr) (k : string) :
  Get o k = VUndefined ↔ o !! k = None ∧ k ∉ Object_prototype.
Proof.
  unfold Get. destruct (o !! k) as [a'|].
  - split; [discriminate|]. by intros [? _].
  - case_bool_decide as Hk.
    + split; [discriminate|]. by intros [_ ?].
    + done.
Qed.

Lemma ToBoolean_Some (s : string) : s ≠ "" → ToBoolean (Some s) = true.
Proof. intros H. simpl. by rewrite bool_decide_eq_false_2. Qed.

(** ** What a call of [handleRequest] changes *)

Lemma handleRequest_transports (tr : jsval) (t : TransportAct) (σ : State) (res : Response) :
  let o := handleRequest tr t σ res in
  (initialized o = None ∧ transports (state o) = transports σ) ∨
  (∃ bits a, tr = VTransport a ∧ initializes t = Some bits ∧
     initialized o = Some (randomUUID bits) ∧
     transports (state o) = <[randomUUID bits := a]> (transports σ)).
Proof.
  destruct tr as [|a|k]; simpl; [by left| |by left].
  destruct (sessionIds σ !! a); simpl; [by left|].
  destruct (initializes t) as [bits|]; simpl; [|by left].
  right. by exists bits, a.
Qed.

Lemma handleRequest_handledBy (tr : jsval) (t : TransportAct) (σ : State) (res : Response) :
  handledBy (handleRequest tr t σ res) = Some tr.
Proof. by destruct tr. Qed.

Section Routes.

Context {Body : Type}.
Variable isInitializeRequest : Body → bool.

Local Abbreviation post_mcp := (post_mcp isInitializeRequest).
Local Abbreviation postTry := (postTry isInitializeRequest).
Local Abbreviation step := (step isInitializeRequest).
Local Abbreviation run := (run isInitializeRequest).
Local Abbreviation minted := (minted isInitializeRequest).
Local Abbreviation freshFor := (freshFor isInitializeRequest).
Local Abbreviation freshTrace := (freshTrace isInitializeRequest).
Local Abbreviation outcomeOf := (outcomeOf isInitializeRequest).

(** The catch clause only touches the response. *)
Lemma post_mcp_state (σ : State) (req : @Request Body) (env : PostEnv) :
  state (post_mcp σ req env) = state (postTry σ req env).
Proof. unfold Gateway.post_mcp. by destruct (completion _). Qed.

Lemma post_mcp_initialized (σ : State) (req : @Request Body) (env : PostEnv) :
  initialized (post_mcp σ req env) = initialized (postTry σ req env).
Proof. unfold Gateway.post_mcp. by destruct (completion _). Qed.

Lemma post_mcp_handledBy (σ : State) (req : @Request Body) (env : PostEnv) :
  handledBy (post_mcp σ req env) = handledBy (postTry σ req env).
Proof. unfold Gateway.post_mcp. by destruct (completion _). Qed.

Lemma post_mcp_response (σ : State) (req : @Request Body) (env : PostEnv) :
  response (post_mcp σ req env) =
    match completion (postTry σ req env) with
    | Return _ => response (postTry σ req env)
    | Throw _ => postCatch (response (postTry σ req env))
    end.
Proof. unfold Gateway.post_mcp. by destruct (completion _). Qed.

(** The three branches of the POST route. *)
Lemma postTry_reuse (σ : State) (req : @Request Body) (env : PostEnv) :
  ToBoolean (mcp_session_id req) = true →
  truthy (Get (transports σ) (ToPropertyKey (mcp_session_id req))) = true →
  postTry σ req env =
    handleRequest (Get (transports σ) (ToPropertyKey (mcp_session_id req)))
      (act env) σ res0.
Proof. intros H1 H2. unfold Gateway.postTry. by rewrite H1, H2. Qed.

Lemma postTry_initialize (σ : State) (req : @Request Body) (env : PostEnv) :
  ToBoolean (mcp_session_id req) = false →
  isInitializeRequest (reqBody req) = true →
  postTry σ req env =
    match connectFails env with
    | Some e =>
        {| completion := Throw e; state := (newTransport σ).2; response := res0;
           handledBy := None; initialized := None |}
    | None =>
        handleRequest (VTransport (constructed σ)) (act env)
          (server_connect (constructed σ) (newTransport σ).2) res0
    end.
Proof. intros H1 H2. unfold Gateway.postTry. by rewrite H1, H2. Qed.

Lemma postTry_reject (σ : State) (req : @Request Body) (env : PostEnv) :
  ToBoolean (mcp_session_id req)
    && truthy (Get (transports σ) (ToPropertyKey (mcp_session_id req))) = false →
  negb (ToBoolean (mcp_session_id req)) && isInitializeRequest (reqBody req) = false →
  postTry σ req env =
    {| completion := Return (); state := σ;
       response := status_json 400
         (jsonRpcError (-32000) "Bad Request: No valid session ID provided") res0;
       handledBy := None; initialized := None |}.
Proof. intros H1 H2. unfold Gateway.postTry. by rewrite H1, H2. Qed.

(** Every write to [transports] is the callback of some transport storing
    itself under an id that its generator has just produced. *)
Lemma postTry_transports (σ : State) (req : @Request Body) (env : PostEnv) :
  let o := postTry σ req env in
  (initialized o = None ∧ transports (state o) = transports σ) ∨
  (∃ bits a, initialized o = Some (randomUUID bits) ∧
     transports (state o) = <[randomUUID bits := a]> (transports σ)).
Proof.
  unfold Gateway.postTry.
  destruct (ToBoolean _ && truthy _).
  { destruct (handleRequest_transports
                (Get (transports σ) (ToPropertyKey (mcp_session_id req)))
                (act env) σ res0) as [?|(bits & a & _ & _ & ? & ?)]; [by left|].
    right. by exists bits, a. }
  destruct (negb _ && isInitializeRequest _); [|by left].
  simpl. destruct (connectFails env); [by left|].
  destruct (handleRequest_transports (VTransport (constructed σ)) (act env)
              (server_connect (constructed σ) (newTransport σ).2) res0)
    as [?|(bits & a & _ & _ & ? & ?)]; [by left|].
  right. by exists bits, a.
Qed.

Lemma get_mcp_transports (σ : State) (req : @Request Body) (t : TransportAct) :
  let o := get_mcp σ req t in
  (initialized o = None ∧ transports (state o) = transports σ) ∨
  (∃ bits a, initialized o = Some (randomUUID bits) ∧
     transports (state o) = <[randomUUID bits := a]> (transports σ)).
Proof.
  unfold get_mcp.
  destruct (negb _ || negb _); [by left|].
  destruct (handleRequest_transports
              (Get (transports σ) (ToPropertyKey (mcp_session_id req))) t σ res0)
    as [?|(bits & a & _ & _ & ? & ?)]; [by left|].
  right. by exists bits, a.
Qed.

Lemma step_transports (σ : State) (ev : Event) :
  (minted σ ev = None ∧ transports (step σ ev) = transports σ) ∨
  (∃ bits a, minted σ ev = Some (randomUUID bits) ∧
     transports (step σ ev) = <[randomUUID bits := a]> (transports σ)).
Proof.
  destruct ev as [req env|req t|a]; unfold Gateway.minted; simpl.
  - rewrite post_mcp_state, post_mcp_initialized. apply postTry_transports.
  - apply get_mcp_transports.
  - by left.
Qed.

(** ** The registry over a run *)

Lemma step_preserves_entry (σ : State) (ev : Event) (sid : string) (a : addr) :
  freshFor σ ev →
  transports σ !! sid = Some a →
  transports (step σ ev) !! sid = Some a.
Proof.
  intros Hfresh Hsid.
  destruct (step_transports σ ev) as [[_ ->]|(bits & a' & Hm & ->)]; [done|].
  rewrite lookup_insert_ne; [done|].
  intros <-. apply Hfresh in Hm. congruence.
Qed.

Lemma run_app (σ : State) (evs1 evs2 : list Event) :
  run σ (evs1 ++ evs2) = run (run σ evs1) evs2.
Proof. apply fold_left_app. Qed.

Lemma freshTrace_app (σ : State) (evs1 evs2 : list Event) :
  freshTrace σ (evs1 ++ evs2) →
  freshTrace σ evs1 ∧ freshTrace (run σ evs1) evs2.
Proof.
  revert σ. induction evs1 as [|ev evs1 IH]; intros σ; simpl; [done|].
  intros [Hev Hrest]. apply IH in Hrest as [??]. done.
Qed.

Lemma run_preserves_entry (σ : State) (evs : list Event) (sid : string) (a : addr) :
  freshTrace σ evs →
  transports σ !! sid = Some a →
  transports (run σ evs) !! sid = Some a.
Proof.
  revert σ. induction evs as [|ev evs IH]; intros σ; simpl; [done|].
  intros [Hev Hrest] Hsid.
  apply IH; [done|]. by apply step_preserves_entry.
Qed.

Lemma step_known (σ : State) (ev : Event) (sid : string) :
  known σ sid → known (step σ ev) sid.
Proof.
  unfold known. intros Hk.
  destruct (step_transports σ ev) as [[_ ->]|(bits & a' & _ & ->)]; [done|].
  rewrite lookup_insert. by case_decide.
Qed.

Lemma uuidKeyed_initial : uuidKeyed initial.
Proof. intros sid [a Ha]. simpl in Ha. by rewrite lookup_empty in Ha. Qed.

Lemma uuidKeyed_step (σ : State) (ev : Event) :
  uuidKeyed σ → uuidKeyed (step σ ev).
Proof.
  intros Hσ sid. unfold known.
  destruct (step_transports σ ev) as [[_ ->]|(bits & a' & _ & ->)]; [apply Hσ|].
  rewrite lookup_insert. case_decide; [subst; eauto|apply Hσ].
Qed.

Lemma uuidKeyed_run (σ : State) (evs : list Event) :
  uuidKeyed σ → uuidKeyed (run σ evs).
Proof.
  revert σ. induction evs as [|ev evs IH]; intros σ Hσ; simpl; [done|].
  by apply IH, uuidKeyed_step.
Qed.

(** A POST that carries the id of a stored transport reaches exactly it. *)
Lemma post_routed_to_owner (σ : State) (sid : string) (a : addr)
    (body : Body) (env : PostEnv) :
  sid ≠ "" →
  transports σ !! sid = Some a →
  handledBy (post_mcp σ {| mcp_session_id := Some sid; reqBody := body |} env)
    = Some (VTransport a).
Proof.
  intros Hne Hsid.
  rewrite post_mcp_handledBy, postTry_reuse; simpl.
  - by rewrite handleRequest_handledBy, (Get_own _ _ a).
  - by rewrite bool_decide_eq_false_2.
  - by rewrite (Get_own _ _ a).
Qed.

Lemma get_routed_to_owner (σ : State) (sid : string) (a : addr)
    (body : Body) (t : TransportAct) :
  sid ≠ "" →
  transports σ !! sid = Some a →
  handledBy (get_mcp σ {| mcp_session_id := Some sid; reqBody := body |} t)
    = Some (VTransport a).
Proof.
  intros Hne Hsid. unfold get_mcp; simpl.
  rewrite (Get_own _ _ a) by done.
  by rewrite bool_decide_eq_false_2.
Qed.

Lemma post_unresolved_rejected (σ : State) (req : @Request Body) (env : PostEnv) :
  unresolved σ (mcp_session_id req) →
  isInitializeRequest (reqBody req) = false →
  post_mcp σ req env =
    {| completion := Return (); state := σ;
       response := status_json 400
         (jsonRpcError (-32000) "Bad Request: No valid session ID provided") res0;
       handledBy := None; initialized := None |}.
Proof.
  intros Hun Hinit. unfold Gateway.post_mcp.
  rewrite postTry_reject; [done| |].
  - destruct Hun as [->| ->]; [done|]. by rewrite andb_false_r.
  - by rewrite Hinit, andb_false_r.
Qed.

Lemma get_unresolved_rejected (σ : State) (req : @Request Body) (t : TransportAct) :
  unresolved σ (mcp_session_id req) →
  get_mcp σ req t =
    {| completion := Return (); state := σ;
       response := status_send 400 "Invalid or missing session ID" res0;
       handledBy := None; initialized := None |}.
Proof.
  intros Hun. unfold get_mcp.
  destruct Hun as [->| ->]; [done|]. by rewrite orb_true_r.
Qed.

Lemma handleRequest_unsent (tr : jsval) (t : TransportAct) (σ : State) :
  headersSent (response (handleRequest tr t σ res0)) = false →
  response (handleRequest tr t σ res0) = res0.
Proof.
  destruct tr as [|a|k]; simpl; [done| |done].
  by destruct (replies t) as [[code p]|].
Qed.

Lemma postTry_unsent (σ : State) (req : @Request Body) (env : PostEnv) :
  headersSent (response (postTry σ req env)) = false →
  response (postTry σ req env) = res0.
Proof.
  unfold Gateway.postTry.
  destruct (ToBoolean _ && truthy _); [apply handleRequest_unsent|].
  destruct (negb _ && isInitializeRequest _); [|done].
  unfold newTransport. cbv beta iota zeta.
  destruct (connectFails env); [done|apply handleRequest_unsent].
Qed.

Lemma handleRequest_constructed (tr : jsval) (t : TransportAct) (σ : State) (res : Response) :
  constructed (state (handleRequest tr t σ res)) = constructed σ ∧
  connected (state (handleRequest tr t σ res)) = connected σ.
Proof.
  destruct tr as [|a|k]; simpl; [done| |done].
  destruct (sessionIds σ !! a); simpl; [done|].
  by destruct (initializes t).
Qed.

(** C1.  Start from the empty registry and let the id generator never
    repeat an id in use.  Once [sid] is a key of [transports] with adapter
    [a], a POST carrying [sid] is handed to [a], and after any further
    events [sid] is still bound to the same [a] and a POST carrying it is
    again handed to [a]: the binding made by [onsessioninitialized] is
    never overwritten or removed. *)
Theorem same_session_same_adapter
    (evs1 evs2 : list Event) (sid : string) (a : addr)
    (body1 body2 : Body) (env1 env2 : PostEnv) :
  freshTrace initial (evs1 ++ evs2) →
  transports (run initial evs1) !! sid = Some a →
  handledBy (post_mcp (run initial evs1)
               {| mcp_session_id := Some sid; reqBody := body1 |} env1)
    = Some (VTransport a) ∧
  handledBy (post_mcp (run initial (evs1 ++ evs2))
               {| mcp_session_id := Some sid; reqBody := body2 |} env2)
    = Some (VTransport a) ∧
  transports (run initial (evs1 ++ evs2)) !! sid = Some a.
Proof.
  intros Hfresh Hsid.
  assert (Hne : sid ≠ "").
  { destruct (uuidKeyed_run initial evs1 uuidKeyed_initial sid) as [bits ->];
      [by exists a|]. apply randomUUID_nonempty. }
  apply freshTrace_app in Hfresh as [_ Hfresh2].
  assert (Hlater : transports (run initial (evs1 ++ evs2)) !! sid = Some a).
  { rewrite run_app. by apply run_preserves_entry. }
  repeat split; [by apply post_routed_to_owner|by apply post_routed_to_owner|done].
Qed.

(** C3 (amended).  No event removes an entry of the registry: a session id
    that is a key of [transports] remains one after any sequence of
    requests and of transports closing. *)
Theorem registry_never_shrinks (σ : State) (evs : list Event) (sid : string) :
  known σ sid → known (run σ evs) sid.
Proof.
  revert σ. induction evs as [|ev evs IH]; intros σ Hk; simpl; [done|].
  by apply IH, step_known.
Qed.

(** C5 (failing input).  A POST whose [mcp-session-id] is "constructor", a
    name under which no session is stored, passes the first test of the
    route because the read finds the member inherited from
    [Object.prototype]; calling [handleRequest] on it throws and the catch
    clause answers 500 with code -32603, not 400 with code -32000. *)
Theorem post_inherited_name_answers_500 (body : Body) (env : PostEnv) :
  let o := post_mcp initial
             {| mcp_session_id := Some "constructor"; reqBody := body |} env in
  ¬ known initial "constructor" ∧
  handledBy o = Some (VInherited "constructor") ∧
  response o =
    status_json 500 (jsonRpcError (-32603) "Internal server error") res0.
Proof.
  split; [|split; reflexivity].
  intros [a Ha]. simpl in Ha. by rewrite lookup_empty in Ha.
Qed.

(** C6 (failing input).  A GET whose [mcp-session-id] is "constructor"
    passes the guard of the route for the same reason; the route writes no
    400 and its promise rejects when [handleRequest] is called on the
    inherited member. *)
Theorem get_inherited_name_not_rejected (body : Body) (t : TransportAct) :
  let o := get_mcp initial
             {| mcp_session_id := Some "constructor"; reqBody := body |} t in
  ¬ known initial "constructor" ∧
  completion o = Throw (JsError "transport.handleRequest is not a function") ∧
  handledBy o = Some (VInherited "constructor") ∧
  response o = res0.
Proof.
  split; [|repeat split; reflexivity].
  intros [a Ha]. simpl in Ha. by rewrite lookup_empty in Ha.
Qed.

(** The POST route constructs a transport exactly in its initialization
    branch. *)
Lemma post_mcp_constructed (σ : State) (req : @Request Body) (env : PostEnv) :
  constructed (state (post_mcp σ req env)) =
    (if negb (ToBoolean (mcp_session_id req)) && isInitializeRequest (reqBody req)
     then S (constructed σ) else constructed σ).
Proof.
  rewrite post_mcp_state.
  destruct (ToBoolean (mcp_session_id req)) eqn:Hsid; cbn [negb andb].
  - unfold Gateway.postTry. rewrite Hsid. cbn [negb andb].
    destruct (truthy _); [apply handleRequest_constructed|done].
  - destruct (isInitializeRequest (reqBody req)) eqn:Hinit.
    + rewrite postTry_initialize by done.
      destruct (connectFails env); [done|].
      by rewrite (proj1 (handleRequest_constructed _ _ _ _)).
    + unfold Gateway.postTry. by rewrite Hsid, Hinit.
Qed.

(** The initialization branch when connecting succeeds and the new
    transport, which has no session id yet, initializes. *)
Lemma post_mcp_opens_session
    (σ : State) (req : @Request Body) (env : PostEnv) (bits : N) :
  ToBoolean (mcp_session_id req) = false →
  isInitializeRequest (reqBody req) = true →
  connectFails env = None →
  initializes (act env) = Some bits →
  sessionIds σ !! constructed σ = None →
  connected (state (post_mcp σ req env)) = constructed σ :: connected σ ∧
  handledBy (post_mcp σ req env) = Some (VTransport (constructed σ)) ∧
  initialized (post_mcp σ req env) = Some (randomUUID bits) ∧
  transports (state (post_mcp σ req env)) =
    <[randomUUID bits := constructed σ]> (transports σ) ∧
  ∀ code p, replies (act env) = Some (code, p) →
    response (post_mcp σ req env) =
      {| statusCode := code; headersSent := true;
         mcpSessionIdHeader := Some (randomUUID bits); body := Some p |}.
Proof.
  intros Hsid Hinit Hconnect Hbits Hnew.
  rewrite post_mcp_state, post_mcp_handledBy, post_mcp_initialized,
    post_mcp_response.
  rewrite postTry_initialize by done. rewrite Hconnect.
  unfold handleRequest, transportHandles. simpl.
  unfold addr in *. rewrite Hnew, Hbits. simpl.
  repeat split.
  intros code p ->. rewrite lookup_insert_eq.
  by destruct (fails (act env)).
Qed.

(** C9.  When the [try] block of the POST route throws, the route still
    completes: if no header has been sent the response becomes status 500
    with the JSON body [{jsonrpc: "2.0", error: {code: -32603, message:
    "Internal server error"}, id: null}], and if headers have been sent
    the response is left exactly as it was. *)
Theorem fault_answered_once (σ : State) (req : @Request Body) (env : PostEnv) (e : Thrown) :
  completion (postTry σ req env) = Throw e →
  let before := response (postTry σ req env) in
  let after := response (post_mcp σ req env) in
  completion (post_mcp σ req env) = Return () ∧
  (headersSent before = false →
     after =
       {| statusCode := 500; headersSent := true; mcpSessionIdHeader := None;
          body := Some (JsonBody
                          (JObj [ ("jsonrpc", JStr "2.0");
                                  ("error", JObj [ ("code", JNum (-32603));
                                                   ("message",
                                                    JStr "Internal server error") ]);
                                  ("id", JNull) ])) |}) ∧
  (headersSent before = true → after = before).
Proof.
  intros Hthrow. cbv zeta.
  rewrite post_mcp_response. unfold Gateway.post_mcp. rewrite Hthrow. simpl.
  split; [done|]. unfold postCatch.
  split; intros Hsent.
  - rewrite Hsent. simpl. by rewrite (postTry_unsent _ _ _ Hsent).
  - by rewrite Hsent.
Qed.

(** C10 (amended).  A POST that carries a non-empty [mcp-session-id] for
    which the read of [transports] finds nothing is answered 400 with code
    -32000 whatever its body is, an initialization message included; no
    transport is constructed, none handles the request and the registry
    is unchanged. *)
Theorem unknown_session_id_rejected
    (σ : State) (sid : string) (body : Body) (env : PostEnv) :
  sid ≠ "" →
  Get (transports σ) sid = VUndefined →
  post_mcp σ {| mcp_session_id := Some sid; reqBody := body |} env =
    {| completion := Return (); state := σ;
       response := status_json 400
         (jsonRpcError (-32000) "Bad Request: No valid session ID provided") res0;
       handledBy := None; initialized := None |}.
Proof.
  intros Hne Hget. unfold Gateway.post_mcp.
  rewrite postTry_reject; [done| |]; simpl.
  - by rewrite Hget, andb_false_r.
  - by rewrite bool_decide_eq_false_2.
Qed.

End Routes.

(** ** The routes at concrete requests *)

Import Examples.

Ltac fresh_by_evaluation :=
  let sid := fresh "sid" in
  let Hm := fresh "Hm" in
  intros sid Hm; vm_compute in Hm;
  first [ discriminate Hm
        | injection Hm as <-; vm_compute; reflexivity ].

(** C1 at a run that opens a session, sees its transport close and opens
    a second session. *)
Lemma same_session_same_adapter_witness :
  freshTrace isInit initial ([firstSession] ++ [TransportClosed 0; secondSession]) ∧
  transports (run isInit initial [firstSession]) !! randomUUID 7 = Some 0 ∧
  handledBy (post_mcp isInit (run isInit initial [firstSession])
               {| mcp_session_id := Some (randomUUID 7); reqBody := toolsListBody |}
               {| connectFails := None; act := answers |})
    = Some (VTransport 0) ∧
  handledBy (post_mcp isInit
               (run isInit initial ([firstSession] ++ [TransportClosed 0; secondSession]))
               {| mcp_session_id := Some (randomUUID 7); reqBody := toolsCallBody |}
               {| connectFails := None; act := answers |})
    = Some (VTransport 0) ∧
  transports (run isInit initial ([firstSession] ++ [TransportClosed 0; secondSession]))
    !! randomUUID 7 = Some 0.
Proof.
  assert (Hfresh : freshTrace isInit initial
                     ([firstSession] ++ [TransportClosed 0; secondSession])).
  { repeat split; fresh_by_evaluation. }
  assert (Hsid : transports (run isInit initial [firstSession]) !! randomUUID 7 = Some 0).
  { vm_compute. reflexivity. }
  split; [exact Hfresh|]. split; [exact Hsid|].
  exact (same_session_same_adapter isInit [firstSession]
           [TransportClosed 0; secondSession] (randomUUID 7) 0
           toolsListBody toolsCallBody
           {| connectFails := None; act := answers |}
           {| connectFails := None; act := answers |} Hfresh Hsid).
Defined.

(** C3 as stated fails: after the first session is opened and its
    transport has closed, the registry still binds the session id to the
    closed transport. *)
Lemma closed_session_still_registered :
  let σ := run isInit initial [firstSession; TransportClosed 0] in
  isClosed σ 0 ∧ transports σ !! randomUUID 7 = Some 0.
Proof.
  split.
  - unfold isClosed. simpl. apply list_elem_of_here.
  - vm_compute. reflexivity.
Qed.

(** C3 (amended) at that run. *)
Lemma registry_never_shrinks_witness :
  known (run isInit initial [firstSession]) (randomUUID 7) ∧
  known (run isInit (run isInit initial [firstSession]) [TransportClosed 0])
    (randomUUID 7).
Proof.
  assert (Hk : known (run isInit initial [firstSession]) (randomUUID 7)).
  { exists 0. vm_compute. reflexivity. }
  split; [exact Hk|].
  exact (registry_never_shrinks isInit (run isInit initial [firstSession])
           [TransportClosed 0] (randomUUID 7) Hk).
Defined.

(** C9 at a request whose transport cannot be connected (nothing sent
    yet). *)
Lemma fault_answered_once_witness :
  let env := {| connectFails := Some (JsError "already connected"); act := quiet |} in
  completion (postTry isInit initial initRequest env)
    = Throw (JsError "already connected") ∧
  response (post_mcp isInit initial initRequest env) =
    {| statusCode := 500; headersSent := true; mcpSessionIdHeader := None;
       body := Some (JsonBody
                       (JObj [ ("jsonrpc", JStr "2.0");
                               ("error", JObj [ ("code", JNum (-32603));
                                                ("message",
                                                 JStr "Internal server error") ]);
                               ("id", JNull) ])) |}.
Proof.
  split; [reflexivity|].
  exact (proj1 (proj2 (fault_answered_once isInit initial initRequest
                         {| connectFails := Some (JsError "already connected");
                            act := quiet |}
                         (JsError "already connected") eq_refl)) eq_refl).
Defined.

(** A transport that fails after it has started its reply: the route adds
    nothing to what was sent. *)
Example fault_after_headers_sent :
  response (post_mcp isInit (run isInit initial [firstSession])
              {| mcp_session_id := Some (randomUUID 7); reqBody := toolsCallBody |}
              {| connectFails := None; act := breaksMidStream |}) =
    {| statusCode := 200; headersSent := true;
       mcpSessionIdHeader := Some (randomUUID 7);
       body := Some (TransportBody ["partial"]) |}.
Proof. vm_compute. reflexivity. Qed.

(** C10 as stated fails: an empty header names no session, the body is an
    initialization message, and the request is not rejected; a session is
    created. *)
Lemma empty_header_not_rejected :
  let req := {| mcp_session_id := Some ""; reqBody := initializeBody |} in
  let o := post_mcp isInit initial req {| connectFails := None; act := accepts 7 |} in
  ¬ known initial "" ∧
  isInit (reqBody req) = true ∧
  handledBy o = Some (VTransport 0) ∧
  statusCode (response o) ≠ 400 ∧
  known (state o) (randomUUID 7).
Proof.
  split; [|split; [reflexivity|split; [reflexivity|split; [discriminate|]]]].
  - intros [a Ha]. simpl in Ha. by rewrite lookup_empty in Ha.
  - exists 0. vm_compute. reflexivity.
Qed.

(** C10 (amended) at Scenario C's id with an initialization body. *)
Lemma unknown_session_id_rejected_witness :
  "not-a-real-id" ≠ "" ∧
  Get (transports initial) "not-a-real-id" = VUndefined ∧
  post_mcp isInit initial
    {| mcp_session_id := Some "not-a-real-id"; reqBody := initializeBody |}
    {| connectFails := None; act := accepts 7 |} =
    {| completion := Return (); state := initial;
       response := status_json 400
         (jsonRpcError (-32000) "Bad Request: No valid session ID provided") res0;
       handledBy := None; initialized := None |}.
Proof.
  assert (Hne : "not-a-real-id" ≠ "") by discriminate.
  assert (Hget : Get (transports initial) "not-a-real-id" = VUndefined)
    by reflexivity.
  split; [exact Hne|]. split; [exact Hget|].
  exact (unknown_session_id_rejected isInit initial "not-a-real-id" initializeBody
           {| connectFails := None; act := accepts 7 |} Hne Hget).
Defined.

End GatewayFacts.

(** * Further properties of the tools/call handler *)

Module DispatchEdge.

Import Dispatch.

Section Router.

Context {Args Result World : Type}.
Variable handlerMap : list (@DispatchEntry Args Result World).

Lemma tryCallTool_resolved
    (name : string) (d : DispatchEntry) (m : Method) (args : Args) (w : World) :
  getHandlerForTool handlerMap name = Return d →
  handlerRef d (methodName d) = Some m →
  tryCallTool handlerMap name args w =
    ((m args w).1, (m args w).2, [(name, methodName d)]).
Proof.
  intros Hget Hm. unfold tryCallTool. rewrite Hget, Hm.
  apply DispatchFacts.getHandlerForTool_registered in Hget as [_ ->].
  by destruct (m args w).
Qed.

(** X1.  A call that succeeds is passed through: the handler method receives
    the arguments as they came, its result is the answer, the world is the
    one it left, and it was called exactly once. *)
Theorem success_passes_through
    (name : string) (d : DispatchEntry) (m : Method)
    (args : Args) (w w' : World) (r : Result) :
  getHandlerForTool handlerMap name = Return d →
  handlerRef d (methodName d) = Some m →
  m args w = (Return r, w') →
  callToolHandler handlerMap name args w = (Return r, w', [(name, methodName d)]).
Proof.
  intros Hget Hm Hrun. unfold callToolHandler.
  rewrite (tryCallTool_resolved name d m) by done.
  by rewrite Hrun.
Qed.

(** X2.  When the table names a method that the handler object does not have,
    the call fails with the plain [TypeError] of calling [undefined]: it is
    not reported as an unknown tool, nothing is called and the world is
    untouched. *)
Theorem missing_method_is_TypeError
    (name : string) (d : DispatchEntry) (args : Args) (w : World) :
  getHandlerForTool handlerMap name = Return d →
  handlerRef d (methodName d) = None →
  callToolHandler handlerMap name args w =
    (Throw (JsError "handler[method] is not a function"), w, []).
Proof.
  intros Hget Hm. unfold callToolHandler, tryCallTool.
  by rewrite Hget, Hm.
Qed.

(** X3.  What a handler throws leaves the tools/call handler as the same value
    whenever it is not an [Error] at all, or is a [McpError] (whatever its
    code and message): only plain errors can be taken for a missing
    handler. *)
Theorem typed_errors_pass_through
    (name : string) (d : DispatchEntry) (m : Method)
    (args : Args) (w w' : World) (e : Thrown) :
  getHandlerForTool handlerMap name = Return d →
  handlerRef d (methodName d) = Some m →
  m args w = (Throw e, w') →
  instanceofError e = false ∨ (∃ code msg, e = McpError code msg) →
  callToolHandler handlerMap name args w = (Throw e, w', [(name, methodName d)]).
Proof.
  intros Hget Hm Hrun He. unfold callToolHandler.
  rewrite (tryCallTool_resolved name d m) by done.
  rewrite Hrun. simpl. unfold catchCallTool, noHandlerFound.
  destruct He as [-> | (code & msg & ->)]; reflexivity.
Qed.

(** X4.  The handler calls at most one method, and only of the tool the request
    names, which then has an entry in the table: no request makes it call
    into another tool. *)
Theorem only_named_tool_is_invoked
    (name : string) (args : Args) (w : World) (tool meth : string) :
  (tool, meth) ∈ (callToolHandler handlerMap name args w).2 →
  tool = name ∧ registered handlerMap name ∧
  (callToolHandler handlerMap name args w).2 = [(tool, meth)].
Proof.
  unfold callToolHandler, tryCallTool.
  destruct (getHandlerForTool handlerMap name) as [d|e] eqn:Hget; simpl;
    [|by intros ?%elem_of_nil].
  apply DispatchFacts.getHandlerForTool_registered in Hget as [Hreg Hname].
  destruct (handlerRef d (methodName d)) as [m|]; simpl;
    [|by intros ?%elem_of_nil].
  destruct (m args w) as [[r|e] w']; simpl;
    intros [= -> ->]%list_elem_of_singleton; by rewrite Hname.
Qed.

End Router.

Import Examples Scenarios.

(** X1 at a concrete call. *)
Lemma success_passes_through_witness :
  callToolHandler scenarioMap "linear_create_issue" "{title}" 4 =
    (Return "created {title}", 5, [("linear_create_issue", "handleCreateIssue")]).
Proof.
  exact (success_passes_through scenarioMap "linear_create_issue"
           {| toolName := "linear_create_issue"; handlerRef := issueHandler;
              methodName := "handleCreateIssue" |}
           createIssue "{title}" 4 5 "created {title}" eq_refl eq_refl eq_refl).
Defined.

(** X2 at a concrete call. *)
Lemma missing_method_is_TypeError_witness :
  callToolHandler scenarioMap "linear_get_user" "{}" 4 =
    (Throw (JsError "handler[method] is not a function"), 4, []).
Proof.
  exact (missing_method_is_TypeError scenarioMap "linear_get_user"
           {| toolName := "linear_get_user"; handlerRef := teamHandler;
              methodName := "handleGetUser" |}
           "{}" 4 eq_refl eq_refl).
Defined.

(** X3 at a concrete call. *)
Lemma typed_errors_pass_through_witness :
  callToolHandler scenarioMap "linear_get_teams" "{}" 4 =
    (Throw (NonError "rate limited"), 5, [("linear_get_teams", "handleGetTeams")]).
Proof.
  exact (typed_errors_pass_through scenarioMap "linear_get_teams"
           {| toolName := "linear_get_teams"; handlerRef := teamHandler;
              methodName := "handleGetTeams" |}
           throwsText "{}" 4 5 (NonError "rate limited")
           eq_refl eq_refl eq_refl (or_introl eq_refl)).
Defined.

(** X4 at a concrete call. *)
Lemma only_named_tool_is_invoked_witness :
  ("linear_get_teams", "handleGetTeams")
    ∈ (callToolHandler scenarioMap "linear_get_teams" "{}" 4).2 ∧
  "linear_get_teams" = "linear_get_teams" ∧
  registered scenarioMap "linear_get_teams" ∧
  (callToolHandler scenarioMap "linear_get_teams" "{}" 4).2 =
    [("linear_get_teams", "handleGetTeams")].
Proof.
  assert (Hin : ("linear_get_teams", "handleGetTeams")
                  ∈ (callToolHandler scenarioMap "linear_get_teams" "{}" 4).2).
  { simpl. apply list_elem_of_here. }
  split; [exact Hin|].
  exact (only_named_tool_is_invoked scenarioMap "linear_get_teams" "{}" 4
           "linear_get_teams" "handleGetTeams" Hin).
Defined.

End DispatchEdge.

(** * Invariants of the session registry *)

Module GatewayInvariants.

Import Gateway Lifecycle.

Lemma handleRequest_effect (k : string) (t : TransportAct) (σ : State) (res : Response) :
  Effect σ (state (handleRequest (Get (transports σ) k) t σ res)).
Proof.
  destruct (Get (transports σ) k) as [|a|inherited] eqn:Hget; simpl;
    try apply EffNone.
  apply GatewayFacts.Get_VTransport in Hget.
  destruct (sessionIds σ !! a) eqn:Hid; simpl; [apply EffNone|].
  destruct (initializes t) as [bits|]; simpl.
  - by apply (EffStored σ k).
  - apply EffNone.
Qed.

Lemma Effect_adaptersConnected (σ σ' : State) :
  Effect σ σ' → adaptersConnected σ → adaptersConnected σ'.
Proof.
  intros Heff Hσ sid b.
  destruct Heff as [|a|k a bits Hk Hid| | |bits]; simpl; try apply Hσ.
  - rewrite lookup_insert. case_decide; [|apply Hσ].
    intros [= <-]. by apply (Hσ k).
  - intros Hb. apply elem_of_cons. right. by apply (Hσ sid).
  - rewrite lookup_insert. case_decide.
    + intros [= <-]. apply list_elem_of_here.
    + intros Hb. apply elem_of_cons. right. by apply (Hσ sid).
Qed.

Lemma Effect_connectedOnce (σ σ' : State) :
  Effect σ σ' → connectedOnce σ → connectedOnce σ'.
Proof.
  intros Heff [Hnodup Hbound].
  assert (Hnew : constructed σ ∉ connected σ).
  { intros Hin. apply Hbound in Hin. lia. }
  assert (Hgrow : ∀ a, a ∈ constructed σ :: connected σ → a < S (constructed σ)).
  { intros a [-> | Hin]%elem_of_cons; [lia|]. apply Hbound in Hin. lia. }
  destruct Heff as [|a|k a bits Hk Hid| | |bits]; simpl; try done.
  - split; [done|]. simpl. intros a Hin. apply Hbound in Hin. lia.
  - split; simpl; [by apply NoDup_cons|done].
  - split; simpl; [by apply NoDup_cons|done].
Qed.

Lemma Effect_storedInitialized (σ σ' : State) :
  Effect σ σ' → storedInitialized σ → storedInitialized σ'.
Proof.
  intros Heff [Hstored Hbound].
  assert (Hstored_lt : ∀ sid b, transports σ !! sid = Some b → b < constructed σ).
  { intros sid b Hb. by apply Hbound, (Hstored sid). }
  destruct Heff as [|a|k a bits Hk Hid| | |bits]; split; simpl; try done.
  - intros sid b. rewrite lookup_insert. case_decide.
    + intros [= <-]. rewrite lookup_insert_eq. eauto.
    + intros Hb. rewrite lookup_insert. case_decide; [eauto|by apply (Hstored sid)].
  - intros b. rewrite lookup_insert. case_decide; [|apply Hbound].
    intros _. subst. by apply (Hstored_lt k).
  - intros b Hb. apply Hbound in Hb. lia.
  - intros b Hb. apply Hbound in Hb. lia.
  - intros sid b. rewrite lookup_insert. case_decide.
    + intros [= <-]. rewrite lookup_insert_eq. eauto.
    + intros Hb. rewrite lookup_insert. case_decide; [eauto|by apply (Hstored sid)].
  - intros b. rewrite lookup_insert. case_decide; [lia|].
    intros Hb. apply Hbound in Hb. lia.
Qed.

Section Routes.

Context {Body : Type}.
Variable isInitializeRequest : Body → bool.

Local Abbreviation post_mcp := (post_mcp isInitializeRequest).
Local Abbreviation postTry := (postTry isInitializeRequest).
Local Abbreviation step := (step isInitializeRequest).
Local Abbreviation run := (run isInitializeRequest).

Lemma postTry_effect (σ : State) (req : @Request Body) (env : PostEnv) :
  Effect σ (state (postTry σ req env)).
Proof.
  unfold Gateway.postTry.
  destruct (ToBoolean _ && truthy _); [apply handleRequest_effect|].
  destruct (negb _ && isInitializeRequest _); [|apply EffNone].
  unfold newTransport at 1. cbv beta iota zeta.
  destruct (connectFails env); simpl; [apply EffConstructed|].
  destruct (sessionIds σ !! _); simpl; [apply EffConnected|].
  destruct (initializes (act env)) as [bits|]; simpl.
  - apply EffOpened.
  - apply EffConnected.
Qed.

Lemma step_effect (σ : State) (ev : Event) : Effect σ (step σ ev).
Proof.
  destruct ev as [req env|req t|a]; simpl.
  - rewrite GatewayFacts.post_mcp_state. apply postTry_effect.
  - unfold get_mcp. destruct (negb _ || negb _); [apply EffNone|].
    apply handleRequest_effect.
  - apply EffClosed.
Qed.

Lemma run_invariant (P : State → Prop) (σ : State) (evs : list Event) :
  (∀ σ1 σ2, Effect σ1 σ2 → P σ1 → P σ2) → P σ → P (run σ evs).
Proof.
  intros Hstep. revert σ.
  induction evs as [|ev evs IH]; intros σ Hσ; simpl; [done|].
  apply IH. apply (Hstep σ); [apply step_effect|done].
Qed.

(** X5.  On every run from startup, each session id in the registry is the
    36-character text of a UUID; so it is never the empty string, which
    the routes take for a missing header, nor a name that the registry
    object inherits. *)
Theorem stored_ids_are_uuids (evs : list Event) (sid : string) :
  known (run initial evs) sid →
  String.length sid = 36 ∧ sid ≠ "" ∧ sid ∉ Object_prototype.
Proof.
  intros Hk.
  destruct (GatewayFacts.uuidKeyed_run isInitializeRequest initial evs
              GatewayFacts.uuidKeyed_initial sid Hk) as [bits ->].
  split; [apply GatewayFacts.length_randomUUID|].
  split; [apply GatewayFacts.randomUUID_nonempty
         |apply GatewayFacts.randomUUID_not_inherited].
Qed.

(** X6.  On every run from startup, an adapter found in the registry is one
    that the POST route constructed and passed to [server.connect]. *)
Theorem stored_adapters_are_connected
    (evs : list Event) (sid : string) (a : addr) :
  transports (run initial evs) !! sid = Some a →
  a ∈ connected (run initial evs) ∧ a < constructed (run initial evs).
Proof.
  intros Hsid.
  assert (Hinv : adaptersConnected (run initial evs) ∧ connectedOnce (run initial evs)).
  { apply (run_invariant (λ σ, adaptersConnected σ ∧ connectedOnce σ)).
    - intros σ1 σ2 Heff [H1 H2].
      split; [by apply (Effect_adaptersConnected σ1)
             |by apply (Effect_connectedOnce σ1)].
    - split.
      + intros k b Hb. simpl in Hb. by rewrite lookup_empty in Hb.
      + split; [apply NoDup_nil_2|]. by intros b ?%elem_of_nil. }
  destruct Hinv as [Hadapters [_ Hbound]].
  assert (Hin : a ∈ connected (run initial evs)) by by apply (Hadapters sid).
  split; [done|by apply Hbound].
Qed.

(** X7.  On every run from startup, no transport is passed to
    [server.connect] twice, and the transports connected are among those
    constructed. *)
Theorem transports_connected_once (evs : list Event) :
  NoDup (connected (run initial evs)) ∧
  (List.length (connected (run initial evs)) ≤ constructed (run initial evs))%nat.
Proof.
  assert (Hinv : connectedOnce (run initial evs)).
  { apply (run_invariant connectedOnce).
    - intros σ1 σ2. apply Effect_connectedOnce.
    - split; [apply NoDup_nil_2|]. by intros b ?%elem_of_nil. }
  destruct Hinv as [Hnodup Hbound]. split; [done|].
  assert (Hsub : connected (run initial evs)
                   ⊆+ seq 0 (constructed (run initial evs))).
  { apply NoDup_submseteq; [done|].
    intros a Hin. apply elem_of_seq. apply Hbound in Hin. lia. }
  apply submseteq_length in Hsub. by rewrite length_seq in Hsub.
Qed.

End Routes.

End GatewayInvariants.

(** * When a session is minted *)

Module SessionMinting.

Import Gateway Lifecycle.

Section Routes.

Context {Body : Type}.
Variable isInitializeRequest : Body → bool.

Local Abbreviation post_mcp := (post_mcp isInitializeRequest).
Local Abbreviation postTry := (postTry isInitializeRequest).
Local Abbreviation step := (step isInitializeRequest).
Local Abbreviation run := (run isInitializeRequest).
Local Abbreviation minted := (minted isInitializeRequest).

Lemma storedInitialized_run (evs : list Event) :
  storedInitialized (run initial evs).
Proof.
  apply (GatewayInvariants.run_invariant isInitializeRequest storedInitialized).
  - intros σ1 σ2. apply GatewayInvariants.Effect_storedInitialized.
  - split.
    + intros sid a Ha. simpl in Ha. by rewrite lookup_empty in Ha.
    + intros a [s Hs]. simpl in Hs. by rewrite lookup_empty in Hs.
Qed.

(** A transport taken from the registry has its session id and does not
    initialize again. *)
Lemma handleRequest_stored_quiet
    (k : string) (t : TransportAct) (σ : State) (res : Response) :
  storedInitialized σ →
  initialized (handleRequest (Get (transports σ) k) t σ res) = None.
Proof.
  intros [Hstored _].
  destruct (Get (transports σ) k) as [|a|inherited] eqn:Hget; simpl; try done.
  apply GatewayFacts.Get_VTransport in Hget.
  destruct (Hstored k a Hget) as [s Hs]. unfold addr in *. by rewrite Hs.
Qed.

Lemma minted_only_by_initialize (σ : State) (ev : Event) (sid : string) :
  storedInitialized σ →
  minted σ ev = Some sid →
  ∃ req env, ev = Post req env ∧
    ToBoolean (mcp_session_id req) = false ∧
    isInitializeRequest (reqBody req) = true.
Proof.
  intros Hσ. unfold Gateway.minted.
  destruct ev as [req env|req t|a]; simpl; [| |done].
  - rewrite GatewayFacts.post_mcp_initialized. unfold Gateway.postTry.
    destruct (ToBoolean (mcp_session_id req)) eqn:Hsid; simpl.
    + destruct (truthy _); [|done].
      by rewrite handleRequest_stored_quiet.
    + destruct (isInitializeRequest (reqBody req)) eqn:Hinit; [|done].
      intros _. by exists req, env.
  - unfold get_mcp. destruct (negb _ || negb _); [done|].
    by rewrite handleRequest_stored_quiet.
Qed.

(** C7 (amended).  On every run from startup, a session id enters the
    registry only through a POST whose [mcp-session-id] header is absent
    or empty and whose body is an initialization message; no other POST
    and no GET mints a session.  Such a POST constructs a transport; when
    connecting it to the server succeeds and the transport accepts the
    initialization, the session id is the 36-character text of a UUID
    drawn for it, the transport is the one connected to the server and
    stored under that id, and its reply carries the id in the session
    header together with the initialization result. *)
Theorem session_minted_on_initialize (evs : list Event) :
  (∀ ev sid,
     ¬ known (run initial evs) sid →
     known (step (run initial evs) ev) sid →
     ∃ req env, ev = Post req env ∧
       ToBoolean (mcp_session_id req) = false ∧
       isInitializeRequest (reqBody req) = true) ∧
  (∀ req env,
     ToBoolean (mcp_session_id req) = false →
     isInitializeRequest (reqBody req) = true →
     constructed (state (post_mcp (run initial evs) req env))
       = S (constructed (run initial evs)) ∧
     (connectFails env = None →
      ∀ bits, initializes (act env) = Some bits →
        String.length (randomUUID bits) = 36 ∧
        connected (state (post_mcp (run initial evs) req env))
          = constructed (run initial evs) :: connected (run initial evs) ∧
        handledBy (post_mcp (run initial evs) req env)
          = Some (VTransport (constructed (run initial evs))) ∧
        transports (state (post_mcp (run initial evs) req env))
          = <[randomUUID bits := constructed (run initial evs)]>
              (transports (run initial evs)) ∧
        ∀ code p, replies (act env) = Some (code, p) →
          response (post_mcp (run initial evs) req env) =
            {| statusCode := code; headersSent := true;
               mcpSessionIdHeader := Some (randomUUID bits); body := Some p |})).
Proof.
  pose proof (storedInitialized_run evs) as Hinv.
  split.
  - intros ev sid Hbefore Hafter.
    destruct (GatewayFacts.step_transports isInitializeRequest (run initial evs) ev)
      as [[_ Hsame]|(bits & a & Hminted & _)].
    + exfalso. apply Hbefore. unfold known in *. by rewrite <- Hsame.
    + by apply (minted_only_by_initialize (run initial evs) ev (randomUUID bits)).
  - intros req env Hsid Hinit. split.
    + rewrite GatewayFacts.post_mcp_constructed. by rewrite Hsid, Hinit.
    + intros Hconnect bits Hbits.
      assert (Hnew : sessionIds (run initial evs) !! constructed (run initial evs) = None).
      { destruct Hinv as [_ Hbound].
        destruct (sessionIds (run initial evs) !! constructed (run initial evs))
          as [s|] eqn:Hs; [|done].
        assert (constructed (run initial evs) < constructed (run initial evs))
          by (apply Hbound; eauto).
        lia. }
      destruct (GatewayFacts.post_mcp_opens_session isInitializeRequest
                  (run initial evs) req env bits Hsid Hinit Hconnect Hbits Hnew)
        as (Hconn & Hby & _ & Htr & Hreply).
      split; [apply GatewayFacts.length_randomUUID|]. done.
Qed.

End Routes.

Import Examples.

(** C7 as stated fails in three ways.  With the header present but empty
    the route still opens a session.  With no header and an initialization
    body, no session is created when the transport refuses the request
    (it answers 406 without initializing), nor when connecting the
    transport to the server fails (the route answers 500). *)
Lemma initialize_branch_departures :
  (let req := {| mcp_session_id := Some ""; reqBody := initializeBody |} in
   let o := post_mcp isInit initial req {| connectFails := None; act := accepts 7 |} in
   mcp_session_id req ≠ None ∧
   ¬ known initial (randomUUID 7) ∧
   transports (state o) !! randomUUID 7 = Some 0) ∧
  (let o := post_mcp isInit initial initRequest
              {| connectFails := None; act := refuses |} in
   transports (state o) = ∅ ∧
   statusCode (response o) = 406 ∧
   mcpSessionIdHeader (response o) = None) ∧
  (let o := post_mcp isInit initial initRequest
              {| connectFails := Some (JsError "already connected");
                 act := accepts 7 |} in
   transports (state o) = ∅ ∧
   connected (state o) = [] ∧
   statusCode (response o) = 500).
Proof.
  split; [|split].
  - split; [discriminate|]. split.
    + intros [a Ha]. simpl in Ha. by rewrite lookup_empty in Ha.
    + vm_compute. reflexivity.
  - repeat split.
  - repeat split.
Qed.

(** C7 (amended) at the second initialization of a run, sent with no
    header and a complete initialize request. *)
Lemma session_minted_on_initialize_witness :
  let σ := run isInit initial [firstSession] in
  let o := post_mcp isInit σ initRequest {| connectFails := None; act := accepts 8 |} in
  constructed (state o) = 2 ∧
  connected (state o) = [1; 0] ∧
  handledBy o = Some (VTransport 1) ∧
  transports (state o) = <[randomUUID 8 := 1]> (<[randomUUID 7 := 0]> ∅) ∧
  response o =
    {| statusCode := 200; headersSent := true;
       mcpSessionIdHeader := Some (randomUUID 8);
       body := Some (TransportBody ["initialize result"]) |}.
Proof.
  destruct (session_minted_on_initialize isInit [firstSession]) as [_ Hcase].
  destruct (Hcase initRequest {| connectFails := None; act := accepts 8 |}
              eq_refl eq_refl) as [Hcount Hopen].
  destruct (Hopen eq_refl 8%N eq_refl) as (_ & Hconn & Hby & Htr & Hreply).
  split; [exact Hcount|]. split; [exact Hconn|]. split; [exact Hby|].
  split; [exact Htr|].
  exact (Hreply 200 (TransportBody ["initialize result"]) eq_refl).
Defined.

(** The body of the spec's Scenario A is not an initialization message
    for the guard, so without a header it is answered 400. *)
Example empty_initialize_is_rejected :
  isInit emptyInitializeBody = false ∧
  statusCode (response (post_mcp isInit initial
                          {| mcp_session_id := None; reqBody := emptyInitializeBody |}
                          {| connectFails := None; act := accepts 7 |})) = 400.
Proof. split; reflexivity. Qed.

End SessionMinting.

(** * The decisions of the two /mcp routes *)

Module RouteFacts.

Import Gateway.

Lemma truthy_false (v : jsval) : truthy v = false ↔ v = VUndefined.
Proof. destruct v; simpl; split; congruence. Qed.

Lemma postCatch_sent (res : Response) : headersSent (postCatch res) = true.
Proof. unfold postCatch. by destruct (headersSent res) eqn:Hs. Qed.

Section Routes.

Context {Body : Type}.
Variable isInitializeRequest : Body → bool.

Local Abbreviation post_mcp := (post_mcp isInitializeRequest).
Local Abbreviation postTry := (postTry isInitializeRequest).
Local Abbreviation run := (run isInitializeRequest).

(** X8.  The POST route never lets an error escape, and it leaves a request
    unanswered only when it has handed it to a transport that neither
    wrote a reply nor failed. *)
Theorem post_always_settles (σ : State) (req : @Request Body) (env : PostEnv) :
  completion (post_mcp σ req env) = Return () ∧
  (headersSent (response (post_mcp σ req env)) = false →
   ∃ a, handledBy (post_mcp σ req env) = Some (VTransport a) ∧
        replies (act env) = None ∧ fails (act env) = None).
Proof.
  split.
  { unfold Gateway.post_mcp.
    destruct (completion (postTry σ req env)) as [[]|e] eqn:Hc; [done|done]. }
  rewrite GatewayFacts.post_mcp_response, GatewayFacts.post_mcp_handledBy.
  destruct (completion (postTry σ req env)) as [[]|e] eqn:Hc;
    [|by rewrite postCatch_sent].
  revert Hc. unfold Gateway.postTry.
  destruct (ToBoolean _ && truthy _).
  { destruct (Get (transports σ) _) as [|a|k]; simpl; [done| |done].
    destruct (fails (act env)); [done|].
    destruct (replies (act env)) as [[code p]|]; [done|]. eauto. }
  destruct (negb _ && isInitializeRequest _); [|done].
  unfold newTransport. cbv beta iota zeta.
  destruct (connectFails env); [done|]. simpl.
  destruct (fails (act env)); [done|].
  destruct (replies (act env)) as [[code p]|]; [done|]. eauto.
Qed.

(** X9.  The POST route answers 400 with code -32000, touching nothing, in
    exactly two situations: the header is absent or empty and the body is
    not an initialization message, or the header is non-empty and the read
    of the registry under it finds nothing. *)
Theorem post_rejected_iff (σ : State) (req : @Request Body) (env : PostEnv) :
  post_mcp σ req env =
    {| completion := Return (); state := σ;
       response := status_json 400
         (jsonRpcError (-32000) "Bad Request: No valid session ID provided") res0;
       handledBy := None; initialized := None |}
  ↔ (ToBoolean (mcp_session_id req) = false ∧
     isInitializeRequest (reqBody req) = false) ∨
    (ToBoolean (mcp_session_id req) = true ∧
     Get (transports σ) (ToPropertyKey (mcp_session_id req)) = VUndefined).
Proof.
  split.
  - intros Heq.
    pose proof (f_equal handledBy Heq) as Hby.
    pose proof (f_equal (λ o, constructed (state o)) Heq) as Hcount.
    rewrite GatewayFacts.post_mcp_handledBy in Hby.
    simpl in Hby, Hcount. rewrite GatewayFacts.post_mcp_state in Hcount.
    revert Hby Hcount. unfold Gateway.postTry.
    destruct (ToBoolean (mcp_session_id req)) eqn:Hsid; simpl.
    + destruct (truthy _) eqn:Htruthy.
      * by rewrite GatewayFacts.handleRequest_handledBy.
      * intros _ _. right. split; [done|]. by apply truthy_false.
    + destruct (isInitializeRequest (reqBody req)); [|by left].
      destruct (connectFails env); simpl; [lia|done].
  - intros [[Hsid Hinit]|[Hsid Hget]]; unfold Gateway.post_mcp;
      rewrite GatewayFacts.postTry_reject; try done.
    + by rewrite Hsid.
    + by rewrite Hsid, Hinit.
    + by rewrite Hget, andb_false_r.
    + by rewrite Hsid.
Qed.

(** X10.  The GET route answers 400 "Invalid or missing session ID", touching
    nothing, exactly when the header is absent or empty or the read of the
    registry under it finds nothing. *)
Theorem get_rejected_iff (σ : State) (req : @Request Body) (t : TransportAct) :
  get_mcp σ req t =
    {| completion := Return (); state := σ;
       response := status_send 400 "Invalid or missing session ID" res0;
       handledBy := None; initialized := None |}
  ↔ unresolved σ (mcp_session_id req).
Proof.
  split; [|apply GatewayFacts.get_unresolved_rejected].
  intros Heq. pose proof (f_equal handledBy Heq) as Hby.
  revert Hby. unfold get_mcp, unresolved.
  destruct (ToBoolean (mcp_session_id req)); simpl; [|by left].
  destruct (truthy _) eqn:Htruthy; simpl.
  - by rewrite GatewayFacts.handleRequest_handledBy.
  - intros _. right. by apply truthy_false.
Qed.

(** X11.  On every run from startup, a GET that carries a stored session id is
    the act of that session's transport and nothing else: the route adds
    no write and no state change of its own. *)
Theorem get_is_the_transports_act
    (evs : list Event) (sid : string) (a : addr) (body : Body) (t : TransportAct) :
  transports (run initial evs) !! sid = Some a →
  get_mcp (run initial evs) {| mcp_session_id := Some sid; reqBody := body |} t =
    transportHandles a t (run initial evs) res0.
Proof.
  intros Hsid.
  assert (Hne : sid ≠ "").
  { destruct (GatewayFacts.uuidKeyed_run isInitializeRequest initial evs
                GatewayFacts.uuidKeyed_initial sid) as [bits ->]; [by exists a|].
    apply GatewayFacts.randomUUID_nonempty. }
  unfold get_mcp. simpl.
  rewrite (GatewayFacts.Get_own _ _ a) by done.
  by rewrite bool_decide_eq_false_2.
Qed.

End Routes.

Import Examples.

(** X11 at a concrete call. *)
Lemma get_is_the_transports_act_witness :
  transports (run isInit initial [firstSession]) !! randomUUID 7 = Some 0 ∧
  get_mcp (run isInit initial [firstSession])
    {| mcp_session_id := Some (randomUUID 7); reqBody := toolsListBody |} answers =
    transportHandles 0 answers (run isInit initial [firstSession]) res0.
Proof.
  assert (Hsid : transports (run isInit initial [firstSession]) !! randomUUID 7 = Some 0).
  { vm_compute. reflexivity. }
  split; [exact Hsid|].
  exact (get_is_the_transports_act isInit [firstSession] (randomUUID 7) 0
           toolsListBody answers Hsid).
Defined.

End RouteFacts.

(** * The single-shot route *)

Module SingleShotFacts.

Import SingleShot.

Section Route.

Context {Params Result : Type}.
Variable server_request : @ServerRequest Params → Completion Result.

Local Abbreviation post_mcp := (post_mcp server_request).
Local Abbreviation postTry := (postTry server_request).

(** Until the [try] block sends something, the response is the one it was
    given; once it completes, one line has been added and the stream
    ended. *)
Lemma postTry_shape (body : option Message) (res : Response) :
  (∃ e, postTry body res = (Throw e, res)) ∨
  (∃ l, postTry body res = (Return (), close (send l res))).
Proof.
  unfold SingleShot.postTry. destruct body as [message|]; [|eauto].
  destruct (strictEquals (method message) "tools/list").
  { destruct (server_request ListToolsRequest); eauto. }
  destruct (strictEquals (method message) "tools/call").
  { destruct (server_request (Forwarded message)); eauto. }
  destruct (templateText (method message)); eauto.
Qed.

(** X12.  Whatever the body is and whatever the server does, the route answers:
    the response is sent and ended, with either status 200 and exactly one
    line written, or status 500, a JSON error body and no line. *)
Theorem single_shot_always_answers (body : option Message) :
  let res := post_mcp body in
  headersSent res = true ∧ ended res = true ∧
  ((statusCode res = 200 ∧ List.length (written res) = 1 ∧ jsonBody res = None) ∨
   (statusCode res = 500 ∧ written res = [] ∧ is_Some (jsonBody res))).
Proof.
  cbv zeta. unfold SingleShot.post_mcp.
  destruct (postTry_shape body
              (setHeader "Connection" "keep-alive"
                 (setHeader "Cache-Control" "no-cache"
                    (setHeader "Content-Type" "application/json" res0))))
    as [[e ->]|[l ->]]; simpl.
  - repeat split; try done. right. eauto.
  - repeat split; try done. left. done.
Qed.

(** X13.  A body whose [method] is neither "tools/list" nor "tools/call"
    is answered without consulting the server.  When the method has a text
    (a string; a missing one, shown as "undefined"; another value that
    converts to a string) the answer is status 200 and the single line
    [{error: {code: -32601, message: "Unknown method: <method>"}}].  When
    it is an object that cannot be converted, building that message
    throws before anything is written and the answer is status 500 with
    code -32603. *)
Theorem unknown_method_is_reported (message : Message) :
  strictEquals (method message) "tools/list" = false →
  strictEquals (method message) "tools/call" = false →
  post_mcp (Some message) =
    match method message with
    | MethodUnprintable =>
        {| headers := [ ("Content-Type", "application/json; charset=utf-8");
                        ("Cache-Control", "no-cache");
                        ("Connection", "keep-alive") ];
           statusCode := 500; headersSent := true; written := [];
           jsonBody :=
             Some (JObj [ ("error",
                           JObj [ ("code", JNum (-32603));
                                  ("message",
                                   JStr "Cannot convert object to primitive value") ]) ]);
           ended := true |}
    | printable =>
        {| headers := [ ("Content-Type", "application/json");
                        ("Cache-Control", "no-cache");
                        ("Connection", "keep-alive") ];
           statusCode := 200; headersSent := true;
           written :=
             [ ObjectLine
                 (JObj [ ("error",
                          JObj [ ("code", JNum (-32601));
                                 ("message",
                                  JStr ("Unknown method: " +:+
                                          match printable with
                                          | MethodString text => text
                                          | MethodOther shown => shown
                                          | _ => "undefined"
                                          end)) ]) ]) ];
           jsonBody := None; ended := true |}
    end.
Proof.
  intros Hlist Hcall. unfold SingleShot.post_mcp, SingleShot.postTry.
  rewrite Hlist, Hcall.
  by destruct (method message).
Qed.

(** X14.  When the call of [server.request] made for a tools/list or tools/call
    body rejects, nothing has been written and the answer is 500 with code
    -32603; its message is the rejected error's own message, or "Internal
    server error" when the rejected value is not an [Error]. *)
Theorem single_shot_fault_shows_message (message : Message) (e : Thrown) :
  (strictEquals (method message) "tools/list" = true ∧
   server_request ListToolsRequest = Throw e) ∨
  (strictEquals (method message) "tools/list" = false ∧
   strictEquals (method message) "tools/call" = true ∧
   server_request (Forwarded message) = Throw e) →
  let res := post_mcp (Some message) in
  statusCode res = 500 ∧ written res = [] ∧
  jsonBody res =
    Some (errorObject InternalError
            (if instanceofError e then Js.message e else "Internal server error")).
Proof.
  intros Hcase. cbv zeta. unfold SingleShot.post_mcp, SingleShot.postTry.
  destruct Hcase as [[-> ->]|(-> & -> & ->)]; done.
Qed.

(** X16.  For tools/list the request given to the server is a fixed one: two
    bodies with that method get the same answer whatever else they
    hold. *)
Theorem tools_list_ignores_the_body (m1 m2 : Message) :
  strictEquals (method m1) "tools/list" = true →
  strictEquals (method m2) "tools/list" = true →
  post_mcp (Some m1) = post_mcp (Some m2).
Proof.
  intros H1 H2. unfold SingleShot.post_mcp, SingleShot.postTry.
  by rewrite H1, H2.
Qed.

End Route.

Import Scenarios.

(** X13 at a body without a method. *)
Lemma unknown_method_is_reported_witness :
  post_mcp notConnected (Some {| method := MethodUndefined; params := "{}" |}) =
    {| headers := [ ("Content-Type", "application/json");
                    ("Cache-Control", "no-cache");
                    ("Connection", "keep-alive") ];
       statusCode := 200; headersSent := true;
       written :=
         [ ObjectLine
             (JObj [ ("error",
                      JObj [ ("code", JNum (-32601));
                             ("message", JStr "Unknown method: undefined") ]) ]) ];
       jsonBody := None; ended := true |}.
Proof.
  exact (unknown_method_is_reported notConnected
           {| method := MethodUndefined; params := "{}" |} eq_refl eq_refl).
Defined.

(** X14 at a tools/call body. *)
Lemma single_shot_fault_shows_message_witness :
  let res := post_mcp notConnected
               (Some {| method := MethodString "tools/call"; params := "{}" |}) in
  statusCode res = 500 ∧ written res = [] ∧
  jsonBody res = Some (errorObject InternalError "Not connected").
Proof.
  exact (single_shot_fault_shows_message notConnected
           {| method := MethodString "tools/call"; params := "{}" |}
           (JsError "Not connected")
           (or_intror (conj eq_refl (conj eq_refl eq_refl)))).
Defined.

(** X16 at two tools/list bodies. *)
Lemma tools_list_ignores_the_body_witness :
  post_mcp notConnected
    (Some {| method := MethodString "tools/list"; params := "{}" |}) =
  post_mcp notConnected
    (Some {| method := MethodString "tools/list"; params := "[1]" |}).
Proof.
  exact (tools_list_ignores_the_body notConnected
           {| method := MethodString "tools/list"; params := "{}" |}
           {| method := MethodString "tools/list"; params := "[1]" |}
           eq_refl eq_refl).
Defined.

End SingleShotFacts.

(** * The invariants at a concrete run *)

Module InvariantWitnesses.

Import Gateway Examples.

(** X5 at a concrete call. *)
Lemma stored_ids_are_uuids_witness :
  known (run isInit initial [firstSession; secondSession]) (randomUUID 8) ∧
  String.length (randomUUID 8) = 36 ∧ randomUUID 8 ≠ "" ∧
  randomUUID 8 ∉ Object_prototype.
Proof.
  assert (Hk : known (run isInit initial [firstSession; secondSession]) (randomUUID 8)).
  { exists 1. vm_compute. reflexivity. }
  split; [exact Hk|].
  exact (GatewayInvariants.stored_ids_are_uuids isInit
           [firstSession; secondSession] (randomUUID 8) Hk).
Defined.

(** X6 at a concrete call. *)
Lemma stored_adapters_are_connected_witness :
  transports (run isInit initial [firstSession; secondSession]) !! randomUUID 8
    = Some 1 ∧
  1 ∈ connected (run isInit initial [firstSession; secondSession]) ∧
  1 < constructed (run isInit initial [firstSession; secondSession]).
Proof.
  assert (Hsid : transports (run isInit initial [firstSession; secondSession])
                   !! randomUUID 8 = Some 1).
  { vm_compute. reflexivity. }
  split; [exact Hsid|].
  exact (GatewayInvariants.stored_adapters_are_connected isInit
           [firstSession; secondSession] (randomUUID 8) 1 Hsid).
Defined.

End InvariantWitnesses.
